(** * Using PennyLane with PySCF and OpenFermion: the tutorial script

    A shallow embedding of [demonstrations/tutorial_qchem_external.py].

    The script is a straight sequence of module-level statements.  Each
    statement reads and binds module globals, calls into PennyLane, PySCF,
    OpenFermion or numpy, and sometimes prints.  The embedding keeps that
    shape: one monadic definition per statement over a state holding the
    globals, the state of the libraries and the history of what happened.

    The libraries themselves are not part of the repository.  They enter
    the development as a parameter ([library]): what they compute (integrals,
    Hartree-Fock, operator algebra, [np.einsum], sums of arrays) is whatever
    the parameter answers.  The exceptions are the two numpy operations that
    only rearrange data the script holds, [np.array] on a literal list and
    [np.swapaxes], which are written out on strided arrays. *)

From Stdlib Require Import ZArith Floats Lia.
From stdpp Require Import base option list strings gmap.

Set Warnings "-inexact-float,-register-all".
Local Open Scope Z_scope.

(** ** Exceptions and fallible results *)

Inductive exn :=
| NameError (x : string)
| TypeError
| ValueError
| IndexError
| AxisError
| LibraryError (what : string).

Inductive result (A : Type) :=
| Ok (a : A)
| Raise (e : exn).
Arguments Ok {A} a.
Arguments Raise {A} e.

#[global] Instance result_ret : MRet result := @Ok.
#[global] Instance result_bind : MBind result := λ A B f r,
  match r with Ok a => f a | Raise e => Raise e end.
#[global] Instance result_fmap : FMap result := λ A B f r,
  match r with Ok a => Ok (f a) | Raise e => Raise e end.

(** ** numpy arrays

    An array is a view on a buffer: per axis an extent and a stride (counted
    in elements), and the position of the first element. *)

Module Numpy.

Record axis := Axis { dim : Z; stride : Z }.

Record ndarray (A : Type) := NDArray {
  axes : list axis;
  offset : Z;
  data : list A
}.
Arguments NDArray {A} axes offset data.
Arguments axes {A} _.
Arguments offset {A} _.
Arguments data {A} _.

Definition ndim {A} (t : ndarray A) : nat := length (axes t).
Definition shape {A} (t : ndarray A) : list Z := dim <$> axes t.

(** [check_and_adjust_axis]: an axis number in [-n, n), counted from the end
    when negative. *)
Definition normalize_axis (ax : Z) (n : nat) : result nat :=
  if (ax <? - Z.of_nat n) || (Z.of_nat n <=? ax) then Raise AxisError
  else Ok (Z.to_nat (if ax <? 0 then ax + Z.of_nat n else ax)).

(** [t.transpose(perm)]: axis [i] of the result is axis [perm[i]] of [t]; the
    buffer is shared. *)
Definition transpose {A} (t : ndarray A) (perm : list nat) : result (ndarray A) :=
  if negb (length perm =? length (axes t))%nat then Raise ValueError
  else if negb (forallb (λ p, p <? length (axes t))%nat perm) then Raise AxisError
  else if negb (bool_decide (NoDup perm)) then Raise ValueError
  else Ok (NDArray (omap (λ p, axes t !! p) perm) (offset t) (data t)).

(** [np.swapaxes(t, axis1, axis2)]: the identity permutation with the two
    entries exchanged, handed to [transpose]. *)
Definition swapaxes {A} (t : ndarray A) (axis1 axis2 : Z) : result (ndarray A) :=
  let n := length (axes t) in
  a1 ← normalize_axis axis1 n;
  a2 ← normalize_axis axis2 n;
  transpose t (<[a2 := a1]> (<[a1 := a2]> (seq 0 n))).

(** Integer indexing [t[i0, ..., ik]]: every index is checked against its
    axis, a negative one counts from the end, and the result is the view on
    what is left (no axis left: a single element). *)
Fixpoint index_axes (axs : list axis) (idx : list Z) (off : Z)
  : result (list axis * Z) :=
  match idx, axs with
  | [], _ => Ok (axs, off)
  | i :: idx', a :: axs' =>
      if (i <? - dim a) || (dim a <=? i) then Raise IndexError
      else index_axes axs' idx' (off + (if i <? 0 then i + dim a else i) * stride a)
  | _ :: _, [] => Raise IndexError
  end.

Definition getitem {A} (t : ndarray A) (idx : list Z) : result (ndarray A) :=
  r ← index_axes (axes t) idx (offset t);
  Ok (NDArray r.1 r.2 (data t)).

(** The element a view without axes stands for. *)
Definition item {A} (t : ndarray A) : option A :=
  match axes t with
  | [] => if offset t <? 0 then None else data t !! Z.to_nat (offset t)
  | _ :: _ => None
  end.

(** [np.array([x0, ..., xn])] on a flat list of scalars: a fresh contiguous
    one-axis array. *)
Definition array1 {A} (xs : list A) : ndarray A :=
  NDArray [Axis (Z.of_nat (length xs)) 1] 0 xs.

(** [np.array] on a list of rows of scalars: a fresh row-major two-axis
    array; rows of different lengths are refused. *)
Definition array2 {A} (rows : list (list A)) : result (ndarray A) :=
  match rows with
  | [] => Ok (NDArray [Axis 0 1] 0 [])
  | r :: _ =>
      let m := length r in
      if forallb (λ r', length r' =? m)%nat rows
      then Ok (NDArray [Axis (Z.of_nat (length rows)) (Z.of_nat m); Axis (Z.of_nat m) 1]
                       0 (concat rows))
      else Raise ValueError
  end.

End Numpy.
Import Numpy.

(** The statement of line 126, [two_mo = np.swapaxes(two_mo, 1, 3)], on the
    array itself: chemists' to physicists' notation. *)
Definition chem_to_phys {A} (two_mo : ndarray A) : result (ndarray A) :=
  swapaxes two_mo 1 3.

(** ** Python values

    What the script holds in its globals and hands to the libraries.  A
    library object (module, class, instance, bound method) is known by its
    identity only. *)

Inductive value :=
| VNone
| VBool (b : bool)
| VInt (n : Z)
| VFloat (x : float)
| VStr (s : string)
| VList (l : list value)
| VTuple (l : list value)
| VArr (t : ndarray float)
| VObj (id : positive).

Definition newline : string := String (Ascii.ascii_of_nat 10) "".

Definition as_float (v : value) : option float :=
  match v with VFloat x => Some x | _ => None end.

Definition as_floats (v : value) : option (list float) :=
  match v with VList l => mapM as_float l | _ => None end.

(** [np.array(v)] for the two shapes the script builds: a list of floats and
    a list of rows of floats.  numpy accepts more (scalars, deeper nesting,
    other element types); none of it occurs in the script, and the model
    refuses it. *)
Definition np_array (v : value) : result value :=
  match v with
  | VList l =>
      match mapM as_float l with
      | Some xs => Ok (VArr (array1 xs))
      | None =>
          match mapM as_floats l with
          | Some rows => VArr <$> array2 rows
          | None => Raise TypeError
          end
      end
  | _ => Raise TypeError
  end.

(** [np.swapaxes(v, a1, a2)]: what is not an array is converted first.  A
    scalar (a float, and likewise [None], a boolean, an integer, a string or
    a library object without the array protocol) becomes an array without
    axes, for which every axis number is out of range.  numpy also converts
    nested lists and tuples; [ao2mo.incore.full] answers an array, and the
    model refuses them. *)
Definition np_swapaxes (v a1 a2 : value) : result value :=
  match a1, a2 with
  | VInt i, VInt j =>
      match v with
      | VArr t => VArr <$> swapaxes t i j
      | VFloat x => VArr <$> swapaxes (NDArray [] 0 [x]) i j
      | VList _ | VTuple _ => Raise TypeError
      | VNone | VBool _ | VInt _ | VStr _ | VObj _ => Raise AxisError
      end
  | _, _ => Raise TypeError
  end.

(** The characters of a string, each a string of length one. *)
Fixpoint characters (s : string) : list value :=
  match s with
  | EmptyString => []
  | String a s' => VStr (String a "") :: characters s'
  end.

(** [t[0], t[1], ...] along the first axis: scalars when [t] has one axis,
    views on what is left otherwise. *)
Definition entries (t : ndarray float) : result (list value) :=
  match axes t with
  | [] => Raise TypeError
  | a :: rest =>
      Ok ((λ i : nat,
             let view := NDArray rest (offset t + Z.of_nat i * stride a) (data t) in
             match rest, item view with
             | [], Some x => VFloat x
             | _, _ => VArr view
             end) <$> seq 0 (Z.to_nat (dim a)))
  end.

(** What iterating over a value yields: the items of a tuple or list, the
    characters of a string, the entries of an array along its first axis.
    [None], booleans and numbers are not iterable, and neither is an array
    without axes.  A library object is known by its identity only and is
    taken not to be iterable. *)
Definition iterate (v : value) : result (list value) :=
  match v with
  | VTuple l | VList l => Ok l
  | VStr s => Ok (characters s)
  | VArr t => entries t
  | VNone | VBool _ | VInt _ | VFloat _ | VObj _ => Raise TypeError
  end.

(** Unpacking into two targets, [a, b = v]: [v] is iterated over and must
    yield exactly two values. *)
Definition unpack2 (v : value) : result (value * value) :=
  l ← iterate v;
  match l with
  | [a; b] => Ok (a, b)
  | _ => Raise ValueError
  end.

Definition as_str (v : value) : result string :=
  match v with VStr s => Ok s | _ => Raise TypeError end.

(** ** What happens during a run *)

Inductive event :=
| Called (f : string) (args : list value) (kwargs : list (string * value))
         (r : result value)
| Read (x : string) (v : value)
| Bound (x : string) (v : value)
| Printed (s : string).

(** The libraries: given the name of what is asked of them, the receiver and
    arguments and the keyword arguments, they answer with a value or raise,
    and may change their own state [W] (a solver object keeps its result).
    What a library writes to the output on its own account (PySCF reports
    the energies its solvers converge to) is not recorded: [Printed] stands
    for the [print] statements of the script. *)
Definition library (W : Type) : Type :=
  string → list value → list (string * value) → W → result value * W.

(** The state of a run.  [log] holds the events newest first. *)
Record state (W : Type) := State {
  globals : gmap string value;
  world : W;
  log : list event
}.
Arguments State {W} globals world log.
Arguments globals {W} _.
Arguments world {W} _.
Arguments log {W} _.

Definition history {W} (s : state W) : list event := rev (log s).

(** A statement or expression: it ends with a value or with an exception
    nobody catches, and leaves a state either way. *)
Definition M (W A : Type) : Type := state W → result A * state W.

#[global] Instance M_ret {W} : MRet (M W) := λ A a s, (Ok a, s).
#[global] Instance M_bind {W} : MBind (M W) := λ A B f m s,
  match m s with
  | (Ok a, s') => f a s'
  | (Raise e, s') => (Raise e, s')
  end.

Definition lift {W A} (r : result A) : M W A := λ s, (r, s).

Definition emit {W} (e : event) : M W unit := λ s,
  (Ok (), State (globals s) (world s) (e :: log s)).

(** Reading a global name. *)
Definition load {W} (x : string) : M W value := λ s,
  match globals s !! x with
  | Some v => (Ok v, State (globals s) (world s) (Read x v :: log s))
  | None => (Raise (NameError x), s)
  end.

(** Binding a global name, whatever it was bound to before. *)
Definition store {W} (x : string) (v : value) : M W unit := λ s,
  (Ok (), State (<[x := v]> (globals s)) (world s) (Bound x v :: log s)).

Definition write {W} (text : string) : M W unit := emit (Printed text).

Section Script.
Context {W : Type} (lib : library W).

(** Asking a library for something. *)
Definition call (f : string) (args : list value) (kwargs : list (string * value))
  : M W value := λ s,
  let '(r, w) := lib f args kwargs (world s) in
  (r, State (globals s) w (Called f args kwargs r :: log s)).

(** A numpy operation written out in this file: the result is computed
    here, the call is recorded like any other. *)
Definition computed (f : string) (args : list value) (kwargs : list (string * value))
  (r : result value) : M W value := λ s,
  (r, State (globals s) (world s) (Called f args kwargs r :: log s)).

(** [recv.name(args)] and [recv.name] *)
Definition method (recv : value) (name : string) (args : list value)
  (kwargs : list (string * value)) : M W value :=
  call name (recv :: args) kwargs.

Definition getattr (recv : value) (name : string) : M W value :=
  call ("." +:+ name) [recv] [].

Definition import (name : string) : M W value :=
  call "import" [VStr name] [].

(** [cls(args)] *)
Definition construct (cls : value) (args : list value) : M W value :=
  call "__call__" (cls :: args) [].

(** [a * b] and [a + b] where an operand is a library object or an array *)
Definition py_mul (a b : value) : M W value := call "mul" [a; b] [].
Definition py_add (a b : value) : M W value := call "add" [a; b] [].

(** [str(v)] and the [{v}] of an f-string *)
Definition str (v : value) : M W string :=
  r ← call "str" [v] []; lift (as_str r).

Definition format (v : value) : M W string :=
  r ← call "format" [v] []; lift (as_str r).

(** [print(v)] *)
Definition print (v : value) : M W unit :=
  text ← str v; write (text +:+ newline).

(** [np.array(v, **kwargs)] and [np.swapaxes(v, a1, a2)] through the module
    bound to [np] *)
Definition numpy_array (np v : value) (kwargs : list (string * value)) : M W value :=
  computed "array" [np; v] kwargs (np_array v).

Definition numpy_swapaxes (np v a1 a2 : value) : M W value :=
  computed "swapaxes" [np; v; a1; a2] [] (np_swapaxes v a1 a2).

(** *** The statements, by line of the source *)

(** [import pennylane as qml] *)
Definition line50 : M W unit :=
  m ← import "pennylane"; store "qml" m.

(** [from pennylane import numpy as np] *)
Definition line51 : M W unit :=
  m ← import "pennylane"; v ← getattr m "numpy"; store "np" v.

(** [symbols = ["H", "O", "H"]] *)
Definition line53 : M W unit :=
  store "symbols" (VList [VStr "H"; VStr "O"; VStr "H"]).

(** [geometry = np.array([[...], [...], [...]], requires_grad = False)] *)
Definition line54 : M W unit :=
  np ← load "np";
  v ← numpy_array np
        (VList [VList [VFloat (-0.0399); VFloat (-0.0038); VFloat 0.0000];
                VList [VFloat 1.5780; VFloat 0.8540; VFloat 0.0000];
                VList [VFloat 2.7909; VFloat (-0.5159); VFloat 0.0000]])
        [("requires_grad", VBool false)];
  store "geometry" v.

(** [molecule = qml.qchem.Molecule(symbols, geometry)] *)
Definition line57 : M W unit :=
  qml ← load "qml"; symbols ← load "symbols"; geometry ← load "geometry";
  v ← method qml "qchem.Molecule" [symbols; geometry] [];
  store "molecule" v.

(** [H, qubits = qml.qchem.molecular_hamiltonian(molecule, method="pyscf")] *)
Definition line59 : M W unit :=
  qml ← load "qml"; molecule ← load "molecule";
  v ← method qml "qchem.molecular_hamiltonian" [molecule] [("method", VStr "pyscf")];
  p ← lift (unpack2 v);
  store "H" p.1;; store "qubits" p.2.

(** [print(H)] *)
Definition line60 : M W unit :=
  H ← load "H"; print H.

(** [from openfermion.ops import QubitOperator] *)
Definition line73 : M W unit :=
  m ← import "openfermion.ops"; v ← getattr m "QubitOperator";
  store "QubitOperator" v.

(** [H = 0.1 * QubitOperator('X0 X1') + 0.2 * QubitOperator('Z0')] *)
Definition line75 : M W unit :=
  c1 ← load "QubitOperator"; q1 ← construct c1 [VStr "X0 X1"];
  t1 ← py_mul (VFloat 0.1) q1;
  c2 ← load "QubitOperator"; q2 ← construct c2 [VStr "Z0"];
  t2 ← py_mul (VFloat 0.2) q2;
  v ← py_add t1 t2;
  store "H" v.

(** [H = qml.qchem.import_operator(H)] *)
Definition line76 : M W unit :=
  qml ← load "qml"; H ← load "H";
  v ← method qml "qchem.import_operator" [H] [];
  store "H" v.

(** [print(f'Type: \n {type(H)} \n')] *)
Definition line78 : M W unit :=
  H ← load "H"; ty ← call "type" [H] []; text ← format ty;
  write (("Type: " +:+ newline +:+ " " +:+ text +:+ " " +:+ newline) +:+ newline).

(** [print(f'Hamiltonian: \n {H}')] *)
Definition line79 : M W unit :=
  H ← load "H"; text ← format H;
  write (("Hamiltonian: " +:+ newline +:+ " " +:+ text) +:+ newline).

(** [from pyscf import gto, ao2mo, scf] *)
Definition line99 : M W unit :=
  m ← import "pyscf";
  gto ← getattr m "gto"; store "gto" gto;;
  ao2mo ← getattr m "ao2mo"; store "ao2mo" ao2mo;;
  scf ← getattr m "scf"; store "scf" scf.

(** [mol_pyscf = gto.M(atom = ...)], the water geometry as text *)
Definition line101 : M W unit :=
  gto ← load "gto";
  v ← method gto "M" []
        [("atom", VStr ("H -0.02111417 -0.00201087  0.;" +:+ newline +:+
                        "                            O  0.83504162  0.45191733  0.;" +:+ newline +:+
                        "                            H  1.47688065 -0.27300252  0."))];
  store "mol_pyscf" v.

(** [rhf = scf.RHF(mol_pyscf)] *)
Definition line104 : M W unit :=
  scf ← load "scf"; mol_pyscf ← load "mol_pyscf";
  v ← method scf "RHF" [mol_pyscf] [];
  store "rhf" v.

(** [energy = rhf.kernel()] *)
Definition line105 : M W unit :=
  rhf ← load "rhf"; v ← method rhf "kernel" [] [];
  store "energy" v.

(** [one_ao = mol_pyscf.intor_symmetric('int1e_kin')
             + mol_pyscf.intor_symmetric('int1e_nuc')] *)
Definition line111 : M W unit :=
  m1 ← load "mol_pyscf"; kin ← method m1 "intor_symmetric" [VStr "int1e_kin"] [];
  m2 ← load "mol_pyscf"; nuc ← method m2 "intor_symmetric" [VStr "int1e_nuc"] [];
  v ← py_add kin nuc;
  store "one_ao" v.

(** [two_ao = mol_pyscf.intor('int2e_sph')] *)
Definition line112 : M W unit :=
  m ← load "mol_pyscf"; v ← method m "intor" [VStr "int2e_sph"] [];
  store "two_ao" v.

(** [one_mo = np.einsum('pi,pq,qj->ij', rhf.mo_coeff, one_ao, rhf.mo_coeff)] *)
Definition line117 : M W unit :=
  np ← load "np";
  r1 ← load "rhf"; c1 ← getattr r1 "mo_coeff";
  one_ao ← load "one_ao";
  r2 ← load "rhf"; c2 ← getattr r2 "mo_coeff";
  v ← method np "einsum" [VStr "pi,pq,qj->ij"; c1; one_ao; c2] [];
  store "one_mo" v.

(** [two_mo = ao2mo.incore.full(two_ao, rhf.mo_coeff)] *)
Definition line118 : M W unit :=
  ao2mo ← load "ao2mo"; two_ao ← load "two_ao";
  r ← load "rhf"; c ← getattr r "mo_coeff";
  v ← method ao2mo "incore.full" [two_ao; c] [];
  store "two_mo" v.

(** [two_mo = np.swapaxes(two_mo, 1, 3)] *)
Definition line126 : M W unit :=
  np ← load "np"; two_mo ← load "two_mo";
  v ← numpy_swapaxes np two_mo (VInt 1) (VInt 3);
  store "two_mo" v.

(** [core_constant = np.array([rhf.energy_nuc()])] *)
Definition line132 : M W unit :=
  np ← load "np";
  rhf ← load "rhf"; e ← method rhf "energy_nuc" [] [];
  v ← numpy_array np (VList [e]) [];
  store "core_constant" v.

(** [H_fermionic = qml.qchem.fermionic_observable(core_constant, one_mo, two_mo)] *)
Definition line139 : M W unit :=
  qml ← load "qml";
  core_constant ← load "core_constant"; one_mo ← load "one_mo"; two_mo ← load "two_mo";
  v ← method qml "qchem.fermionic_observable" [core_constant; one_mo; two_mo] [];
  store "H_fermionic" v.

(** [H = qml.jordan_wigner(H_fermionic)] *)
Definition line145 : M W unit :=
  qml ← load "qml"; H_fermionic ← load "H_fermionic";
  v ← method qml "jordan_wigner" [H_fermionic] [];
  store "H" v.

(** [from pyscf import gto, scf, cc] *)
Definition line167 : M W unit :=
  m ← import "pyscf";
  gto ← getattr m "gto"; store "gto" gto;;
  scf ← getattr m "scf"; store "scf" scf;;
  cc ← getattr m "cc"; store "cc" cc.

(** [mol = gto.M(atom=[['H', (0, 0, 0)], ['H', (0, 0, 0.7)]])] *)
Definition line169 : M W unit :=
  gto ← load "gto";
  v ← method gto "M" []
        [("atom", VList [VList [VStr "H"; VTuple [VInt 0; VInt 0; VInt 0]];
                         VList [VStr "H"; VTuple [VInt 0; VInt 0; VFloat 0.7]]])];
  store "mol" v.

(** [myhf = scf.RHF(mol).run()] *)
Definition line170 : M W unit :=
  scf ← load "scf"; mol ← load "mol";
  hf ← method scf "RHF" [mol] [];
  v ← method hf "run" [] [];
  store "myhf" v.

(** [mycc = cc.CCSD(myhf).run()] *)
Definition line171 : M W unit :=
  cc ← load "cc"; myhf ← load "myhf";
  solver ← method cc "CCSD" [myhf] [];
  v ← method solver "run" [] [];
  store "mycc" v.

(** [state = qml.qchem.import_state(mycc)] *)
Definition line177 : M W unit :=
  qml ← load "qml"; mycc ← load "mycc";
  v ← method qml "qchem.import_state" [mycc] [];
  store "state" v.

(** [print(state)] *)
Definition line178 : M W unit :=
  v ← load "state"; print v.

(** [from openfermion import FermionOperator] *)
Definition line192 : M W unit :=
  m ← import "openfermion"; v ← getattr m "FermionOperator";
  store "FermionOperator" v.

(** [openfermion_op = 0.5 * FermionOperator('0^ 2') + FermionOperator('0 2^')] *)
Definition line193 : M W unit :=
  c1 ← load "FermionOperator"; f1 ← construct c1 [VStr "0^ 2"];
  t1 ← py_mul (VFloat 0.5) f1;
  c2 ← load "FermionOperator"; f2 ← construct c2 [VStr "0 2^"];
  v ← py_add t1 f2;
  store "openfermion_op" v.

(** [pennylane_op = qml.from_openfermion(openfermion_op)] *)
Definition line194 : M W unit :=
  qml ← load "qml"; op ← load "openfermion_op";
  v ← method qml "from_openfermion" [op] [];
  store "pennylane_op" v.

(** [print(pennylane_op)] *)
Definition line195 : M W unit :=
  v ← load "pennylane_op"; print v.

(** [openfermion_op = qml.to_openfermion(pennylane_op)] *)
Definition line201 : M W unit :=
  qml ← load "qml"; op ← load "pennylane_op";
  v ← method qml "to_openfermion" [op] [];
  store "openfermion_op" v.

(** [print(openfermion_op)] *)
Definition line202 : M W unit :=
  v ← load "openfermion_op"; print v.

(** *** The five stages and the script *)

Definition hamiltonian_builder : M W unit :=
  line50;; line51;; line53;; line54;; line57;; line59;; line60.

Definition operator_importer : M W unit :=
  line73;; line75;; line76;; line78;; line79.

(** The solver run the integrals are taken from (lines 99 to 105). *)
Definition hartree_fock : M W unit :=
  line99;; line101;; line104;; line105.

(** Lines 111 to 145. *)
Definition integral_pipeline : M W unit :=
  line111;; line112;; line117;; line118;; line126;; line132;; line139;; line145.

Definition state_importer : M W unit :=
  line167;; line169;; line170;; line171;; line177;; line178.

Definition operator_converter : M W unit :=
  line192;; line193;; line194;; line195;; line201;; line202.

Definition script : M W unit :=
  hamiltonian_builder;; operator_importer;; hartree_fock;; integral_pipeline;;
  state_importer;; operator_converter.

End Script.

(** A run of the script starts with no globals and no history. *)
Definition initial {W} (w : W) : state W := State ∅ w [].

Definition run {W} (lib : library W) (w : W) : result unit * state W :=
  script lib (initial w).

(** ** Reading a history *)

Definition is_call (e : event) : bool :=
  match e with Called _ _ _ _ => true | _ => false end.

(** The requests to the libraries, in order. *)
Definition calls (l : list event) : list event := List.filter is_call l.

Definition call_names (l : list event) : list string :=
  omap (λ e, match e with Called f _ _ _ => Some f | _ => None end) l.

(** The exception of a request that was answered with one. *)
Definition failure (e : event) : option exn :=
  match e with Called _ _ _ (Raise x) => Some x | _ => None end.

(** Does the event read or bind the name [x]? *)
Definition touches (x : string) (e : event) : bool :=
  match e with
  | Read y _ | Bound y _ => String.eqb x y
  | _ => false
  end.

Definition untouched (x : string) (l : list event) : bool :=
  forallb (λ e, negb (touches x e)) l.

(** The values [x] was bound to, in order. *)
Definition bindings (x : string) (l : list event) : list value :=
  omap (λ e, match e with
             | Bound y v => if String.eqb x y then Some v else None
             | _ => None
             end) l.

(** The requests of each stage, by name, as the source lists them. *)
Definition hamiltonian_builder_calls : list string :=
  ["import"; "import"; ".numpy"; "array"; "qchem.Molecule";
   "qchem.molecular_hamiltonian"; "str"].

Definition operator_importer_calls : list string :=
  ["import"; ".QubitOperator"; "__call__"; "mul"; "__call__"; "mul"; "add";
   "qchem.import_operator"; "type"; "format"; "format"].

Definition hartree_fock_calls : list string :=
  ["import"; ".gto"; ".ao2mo"; ".scf"; "M"; "RHF"; "kernel"].

Definition integral_pipeline_calls : list string :=
  ["intor_symmetric"; "intor_symmetric"; "add"; "intor";
   ".mo_coeff"; ".mo_coeff"; "einsum"; ".mo_coeff"; "incore.full";
   "swapaxes"; "energy_nuc"; "array";
   "qchem.fermionic_observable"; "jordan_wigner"].

Definition state_importer_calls : list string :=
  ["import"; ".gto"; ".scf"; ".cc"; "M"; "RHF"; "run"; "CCSD"; "run";
   "qchem.import_state"; "str"].

Definition operator_converter_calls : list string :=
  ["import"; ".FermionOperator"; "__call__"; "mul"; "__call__"; "add";
   "from_openfermion"; "str"; "to_openfermion"; "str"].

Definition script_calls : list string :=
  hamiltonian_builder_calls ++ operator_importer_calls ++ hartree_fock_calls
  ++ integral_pipeline_calls ++ state_importer_calls ++ operator_converter_calls.

(** ** The assembled fermionic Hamiltonian *)

(** The only element of a one-axis array of extent one. *)
Definition single_element {A} (t : ndarray A) : option A :=
  match shape t with
  | [1] => match getitem t [0] with Ok r => item r | Raise _ => None end
  | _ => None
  end.

Record fermionic_hamiltonian := FermionicHamiltonian {
  constant_offset : float;
  one_electron : value;
  two_electron : value
}.

(** Modelled from the spec: [qml.qchem.fermionic_observable] is PennyLane
    code and is not under src/.  The spec describes it as "a
    fermionic-Hamiltonian assembly function taking a nuclear constant,
    one-electron, and two-electron integral tensors", the nuclear-repulsion
    energy being "wrapped as a single-element numeric container, added as a
    constant offset into the fermionic Hamiltonian". *)
Definition fermionic_observable (constant one two : value)
  : option fermionic_hamiltonian :=
  match constant with
  | VArr c => x ← single_element c; Some (FermionicHamiltonian x one two)
  | _ => None
  end.

(** ** Straight-line statements

    [straight m names]: whatever the state and whatever the libraries
    answer, running [m] asks for [names], in this order, and for nothing
    else.  It stops early only on an exception, and a request answered with
    an exception is the last thing that happens, its exception being the
    outcome. *)
Definition straight {W A} (m : M W A) (names : list string) : Prop :=
  ∀ s, ∃ new,
    log (m s).2 = new ++ log s ∧
    match (m s).1 with
    | Ok _ =>
        call_names (rev new) = names ∧ Forall (λ e, failure e = None) new
    | Raise x =>
        call_names (rev new) `prefix_of` names ∧
        match new with
        | [] => True
        | e :: older =>
            (failure e = None ∨ failure e = Some x)
            ∧ Forall (λ e, failure e = None) older
        end
    end.

(** ** A small stand-in for the libraries

    Enough to run the script to its end: every request is numbered, objects
    are named after the number of the request that made them, and the
    integrals are tiny arrays. *)

Definition toy_two_ao : ndarray float :=
  NDArray [Axis 2 8; Axis 2 4; Axis 2 2; Axis 2 1] 0
    [0; 1; 2; 3; 4; 5; 6; 7; 8; 9; 10; 11; 12; 13; 14; 15]%float.

Definition toy_matrix : ndarray float :=
  NDArray [Axis 2 2; Axis 2 1] 0 [1; 0; 0; 1]%float.

Definition toy_lib : library nat := λ f args kwargs n,
  let fresh := VObj (Pos.of_succ_nat n) in
  let answer :=
    if String.eqb f "qchem.molecular_hamiltonian" then VTuple [fresh; VInt 14]
    else if String.eqb f "str" then VStr "<str>"
    else if String.eqb f "format" then VStr "<format>"
    else if String.eqb f "kernel" then VFloat (-74.96)
    else if String.eqb f "energy_nuc" then VFloat 9.19
    else if String.eqb f "intor" then VArr toy_two_ao
    else if String.eqb f "incore.full" then VArr toy_two_ao
    else if String.eqb f "intor_symmetric" then VArr toy_matrix
    else if String.eqb f "add" then
      match args with VArr _ :: _ => VArr toy_matrix | _ => fresh end
    else if String.eqb f "einsum" then VArr toy_matrix
    else if String.eqb f ".mo_coeff" then VArr toy_matrix
    else fresh in
  (Ok answer, S n).

(** The toy run: the state the integral pipeline starts from, the state it
    leaves, and the state at the end of the script. *)
Definition toy_ready : state nat :=
  ((hamiltonian_builder toy_lib;; operator_importer toy_lib;;
    hartree_fock toy_lib) (initial 0%nat)).2.

Definition toy_assembled : state nat := (integral_pipeline toy_lib toy_ready).2.

Definition toy_final : state nat := (run toy_lib 0%nat).2.

(** A library in which the Hartree-Fock solver fails. *)
Definition failing_lib : library nat := λ f args kwargs n,
  if String.eqb f "kernel" then (Raise (LibraryError "no convergence"), S n)
  else toy_lib f args kwargs n.

(** ** Further readings of a history, literals and stand-ins *)

(** What the [print] statements of the script wrote, in order. *)
Definition printed (l : list event) : list string :=
  omap (λ e, match e with Printed text => Some text | _ => None end) l.

(** Is the event a read of the name [x]? *)
Definition reads (x : string) (e : event) : bool :=
  match e with Read y _ => String.eqb x y | _ => false end.

(** The literals of lines 54 to 56, 101 to 103 and 169. *)
Definition water_coordinates : value :=
  VList [VList [VFloat (-0.0399); VFloat (-0.0038); VFloat 0.0000];
         VList [VFloat 1.5780; VFloat 0.8540; VFloat 0.0000];
         VList [VFloat 2.7909; VFloat (-0.5159); VFloat 0.0000]].

Definition water_text : string :=
  "H -0.02111417 -0.00201087  0.;" +:+ newline +:+
  "                            O  0.83504162  0.45191733  0.;" +:+ newline +:+
  "                            H  1.47688065 -0.27300252  0.".

Definition hydrogen_atoms : value :=
  VList [VList [VStr "H"; VTuple [VInt 0; VInt 0; VInt 0]];
         VList [VStr "H"; VTuple [VInt 0; VInt 0; VFloat 0.7]]].

(** How a run can be stopped: by a request answered with the exception, by
    an answer of the Hamiltonian builder that does not unpack into two, or
    by an answer to [str] or [format] that is not a string.  In each case
    the request is the last event. *)
Definition stopped_by {W} (e : exn) (s' : state W) : Prop :=
  ∃ f args kwargs r older,
    log s' = Called f args kwargs r :: older
    ∧ (r = Raise e
       ∨ (f = "qchem.molecular_hamiltonian"
          ∧ ∃ v, r = Ok v ∧ unpack2 v = Raise e)
       ∨ ((f = "str" ∨ f = "format") ∧ ∃ v, r = Ok v ∧ as_str v = Raise e)).

(** [every_event P m]: whatever the state and the libraries' answers, every
    event of running [m] satisfies [P]. *)
Definition every_event {W A} (P : event → bool) (m : M W A) : Prop :=
  ∀ s, ∃ new, log (m s).2 = new ++ log s ∧ forallb P new = true.

(** An array with five axes. *)
Definition toy_five : ndarray float :=
  NDArray [Axis 2 16; Axis 2 8; Axis 2 4; Axis 2 2; Axis 2 1] 0
    (repeat 0%float 32).

(** The toy run, stage by stage. *)
Definition toy_built : state nat := (hamiltonian_builder toy_lib (initial 0%nat)).2.
Definition toy_imported : state nat := (operator_importer toy_lib toy_built).2.
Definition toy_solved : state nat := (hartree_fock toy_lib toy_imported).2.
Definition toy_state : state nat := (state_importer toy_lib toy_assembled).2.
Definition toy_converted : state nat := (operator_converter toy_lib toy_state).2.

(** Libraries whose answers have the wrong shape: a two-electron array with
    two axes only, and a Hamiltonian builder answering with three values. *)
Definition flat_lib : library nat := λ f args kwargs n,
  if String.eqb f "incore.full" then (Ok (VArr toy_matrix), S n)
  else toy_lib f args kwargs n.

Definition triple_lib : library nat := λ f args kwargs n,
  if String.eqb f "qchem.molecular_hamiltonian"
  then (Ok (VTuple [VObj 1; VInt 14; VNone]), S n)
  else toy_lib f args kwargs n.

Definition flat_stopped : state nat := (integral_pipeline flat_lib toy_ready).2.
Definition triple_stopped : state nat :=
  (hamiltonian_builder triple_lib (initial 0%nat)).2.
Definition failing_stopped : state nat := (run failing_lib 0%nat).2.

(** A Python list of rows of floats, as a literal like that of line 54
    builds it. *)
Definition rows_literal (rows : list (list float)) : value :=
  VList ((λ row, VList (VFloat <$> row)) <$> rows).

(** ** The run as one fixed sequence of events

    What the script does can be written down once and for all, as a list of
    events in which only the answers of the libraries are left open.  A run
    goes through that list from the top and stops at the first event that
    stops it, if there is one. *)

(** The value of an answer (of no interest when the answer is an exception:
    the run stops there). *)
Definition value_of (r : result value) : value :=
  match r with Ok v => v | Raise _ => VNone end.

(** The two values an answer unpacks into, and the text an answer is. *)
Definition unpacked (v : value) : value * value :=
  match unpack2 v with Ok p => p | Raise _ => (VNone, VNone) end.

Definition text_of (v : value) : string :=
  match as_str v with Ok text => text | Raise _ => "" end.

(** The exception an event stops the run with, if it does: the exception a
    request is answered with; for the Hamiltonian builder also that of
    unpacking its answer into two (line 59); for [str] and [format] also
    that of an answer that is not a string. *)
Definition stops (e : event) : option exn :=
  match e with
  | Called f _ _ (Raise x) => Some x
  | Called f _ _ (Ok v) =>
      if String.eqb f "qchem.molecular_hamiltonian"
      then match unpack2 v with Raise x => Some x | Ok _ => None end
      else if String.eqb f "str" || String.eqb f "format"
      then match as_str v with Raise x => Some x | Ok _ => None end
      else None
  | Read _ _ | Bound _ _ | Printed _ => None
  end.

(** A list of events up to and including the first one that stops the run,
    and how a run through the list ends. *)
Fixpoint until_stop (l : list event) : list event :=
  match l with
  | [] => []
  | e :: l' =>
      match stops e with
      | Some _ => [e]
      | None => e :: until_stop l'
      end
  end.

Fixpoint outcome (l : list event) : result unit :=
  match l with
  | [] => Ok ()
  | e :: l' =>
      match stops e with
      | Some x => Raise x
      | None => outcome l'
      end
  end.

(** The events of each stage, in the order of the source.  The parameters
    of type [result value] are the answers of the libraries, in the order
    of the requests; those of type [value] are what earlier stages left in
    the globals the stage reads. *)
Definition hamiltonian_builder_trace
    (qml pl np molecule answer text : result value) : list event :=
  let symbols := VList [VStr "H"; VStr "O"; VStr "H"] in
  let geometry := np_array water_coordinates in
  let H := (unpacked (value_of answer)).1 in
  let qubits := (unpacked (value_of answer)).2 in
  [ (* line 50 *)
    Called "import" [VStr "pennylane"] [] qml;
    Bound "qml" (value_of qml);
    (* line 51 *)
    Called "import" [VStr "pennylane"] [] pl;
    Called ".numpy" [value_of pl] [] np;
    Bound "np" (value_of np);
    (* line 53 *)
    Bound "symbols" symbols;
    (* line 54 *)
    Read "np" (value_of np);
    Called "array" [value_of np; water_coordinates]
      [("requires_grad", VBool false)] geometry;
    Bound "geometry" (value_of geometry);
    (* line 57 *)
    Read "qml" (value_of qml); Read "symbols" symbols;
    Read "geometry" (value_of geometry);
    Called "qchem.Molecule" [value_of qml; symbols; value_of geometry] []
      molecule;
    Bound "molecule" (value_of molecule);
    (* line 59 *)
    Read "qml" (value_of qml); Read "molecule" (value_of molecule);
    Called "qchem.molecular_hamiltonian" [value_of qml; value_of molecule]
      [("method", VStr "pyscf")] answer;
    Bound "H" H; Bound "qubits" qubits;
    (* line 60 *)
    Read "H" H; Called "str" [H] [] text;
    Printed (text_of (value_of text) +:+ newline) ].

Definition operator_importer_trace (qml : value)
    (m cls q1 t1 q2 t2 sum imported ty text2 text3 : result value)
  : list event :=
  [ (* line 73 *)
    Called "import" [VStr "openfermion.ops"] [] m;
    Called ".QubitOperator" [value_of m] [] cls;
    Bound "QubitOperator" (value_of cls);
    (* line 75 *)
    Read "QubitOperator" (value_of cls);
    Called "__call__" [value_of cls; VStr "X0 X1"] [] q1;
    Called "mul" [VFloat 0.1; value_of q1] [] t1;
    Read "QubitOperator" (value_of cls);
    Called "__call__" [value_of cls; VStr "Z0"] [] q2;
    Called "mul" [VFloat 0.2; value_of q2] [] t2;
    Called "add" [value_of t1; value_of t2] [] sum;
    Bound "H" (value_of sum);
    (* line 76 *)
    Read "qml" qml; Read "H" (value_of sum);
    Called "qchem.import_operator" [qml; value_of sum] [] imported;
    Bound "H" (value_of imported);
    (* line 78 *)
    Read "H" (value_of imported);
    Called "type" [value_of imported] [] ty;
    Called "format" [value_of ty] [] text2;
    Printed (("Type: " +:+ newline +:+ " " +:+ text_of (value_of text2) +:+ " "
              +:+ newline) +:+ newline);
    (* line 79 *)
    Read "H" (value_of imported);
    Called "format" [value_of imported] [] text3;
    Printed (("Hamiltonian: " +:+ newline +:+ " " +:+ text_of (value_of text3))
             +:+ newline) ].

Definition hartree_fock_trace
    (m gto ao2mo scf mol rhf energy : result value) : list event :=
  [ (* line 99 *)
    Called "import" [VStr "pyscf"] [] m;
    Called ".gto" [value_of m] [] gto; Bound "gto" (value_of gto);
    Called ".ao2mo" [value_of m] [] ao2mo; Bound "ao2mo" (value_of ao2mo);
    Called ".scf" [value_of m] [] scf; Bound "scf" (value_of scf);
    (* line 101 *)
    Read "gto" (value_of gto);
    Called "M" [value_of gto] [("atom", VStr water_text)] mol;
    Bound "mol_pyscf" (value_of mol);
    (* line 104 *)
    Read "scf" (value_of scf); Read "mol_pyscf" (value_of mol);
    Called "RHF" [value_of scf; value_of mol] [] rhf;
    Bound "rhf" (value_of rhf);
    (* line 105 *)
    Read "rhf" (value_of rhf);
    Called "kernel" [value_of rhf] [] energy;
    Bound "energy" (value_of energy) ].

Definition integral_pipeline_trace (np qml ao2mo mol rhf : value)
    (kin nuc one_ao two_ao c1 c2 one_mo c3 two_mo e hf h : result value)
  : list event :=
  let exchanged := np_swapaxes (value_of two_mo) (VInt 1) (VInt 3) in
  let core := np_array (VList [value_of e]) in
  [ (* line 111 *)
    Read "mol_pyscf" mol;
    Called "intor_symmetric" [mol; VStr "int1e_kin"] [] kin;
    Read "mol_pyscf" mol;
    Called "intor_symmetric" [mol; VStr "int1e_nuc"] [] nuc;
    Called "add" [value_of kin; value_of nuc] [] one_ao;
    Bound "one_ao" (value_of one_ao);
    (* line 112 *)
    Read "mol_pyscf" mol;
    Called "intor" [mol; VStr "int2e_sph"] [] two_ao;
    Bound "two_ao" (value_of two_ao);
    (* line 117 *)
    Read "np" np;
    Read "rhf" rhf; Called ".mo_coeff" [rhf] [] c1;
    Read "one_ao" (value_of one_ao);
    Read "rhf" rhf; Called ".mo_coeff" [rhf] [] c2;
    Called "einsum"
      [np; VStr "pi,pq,qj->ij"; value_of c1; value_of one_ao; value_of c2] []
      one_mo;
    Bound "one_mo" (value_of one_mo);
    (* line 118 *)
    Read "ao2mo" ao2mo; Read "two_ao" (value_of two_ao);
    Read "rhf" rhf; Called ".mo_coeff" [rhf] [] c3;
    Called "incore.full" [ao2mo; value_of two_ao; value_of c3] [] two_mo;
    Bound "two_mo" (value_of two_mo);
    (* line 126 *)
    Read "np" np; Read "two_mo" (value_of two_mo);
    Called "swapaxes" [np; value_of two_mo; VInt 1; VInt 3] [] exchanged;
    Bound "two_mo" (value_of exchanged);
    (* line 132 *)
    Read "np" np;
    Read "rhf" rhf; Called "energy_nuc" [rhf] [] e;
    Called "array" [np; VList [value_of e]] [] core;
    Bound "core_constant" (value_of core);
    (* line 139 *)
    Read "qml" qml;
    Read "core_constant" (value_of core); Read "one_mo" (value_of one_mo);
    Read "two_mo" (value_of exchanged);
    Called "qchem.fermionic_observable"
      [qml; value_of core; value_of one_mo; value_of exchanged] [] hf;
    Bound "H_fermionic" (value_of hf);
    (* line 145 *)
    Read "qml" qml; Read "H_fermionic" (value_of hf);
    Called "jordan_wigner" [qml; value_of hf] [] h;
    Bound "H" (value_of h) ].

Definition state_importer_trace (qml : value)
    (m gto scf cc mol hf myhf solver mycc st text : result value)
  : list event :=
  [ (* line 167 *)
    Called "import" [VStr "pyscf"] [] m;
    Called ".gto" [value_of m] [] gto; Bound "gto" (value_of gto);
    Called ".scf" [value_of m] [] scf; Bound "scf" (value_of scf);
    Called ".cc" [value_of m] [] cc; Bound "cc" (value_of cc);
    (* line 169 *)
    Read "gto" (value_of gto);
    Called "M" [value_of gto] [("atom", hydrogen_atoms)] mol;
    Bound "mol" (value_of mol);
    (* line 170 *)
    Read "scf" (value_of scf); Read "mol" (value_of mol);
    Called "RHF" [value_of scf; value_of mol] [] hf;
    Called "run" [value_of hf] [] myhf;
    Bound "myhf" (value_of myhf);
    (* line 171 *)
    Read "cc" (value_of cc); Read "myhf" (value_of myhf);
    Called "CCSD" [value_of cc; value_of myhf] [] solver;
    Called "run" [value_of solver] [] mycc;
    Bound "mycc" (value_of mycc);
    (* line 177 *)
    Read "qml" qml; Read "mycc" (value_of mycc);
    Called "qchem.import_state" [qml; value_of mycc] [] st;
    Bound "state" (value_of st);
    (* line 178 *)
    Read "state" (value_of st); Called "str" [value_of st] [] text;
    Printed (text_of (value_of text) +:+ newline) ].

Definition operator_converter_trace (qml : value)
    (m cls f1 t1 f2 op pl text1 back text2 : result value) : list event :=
  [ (* line 192 *)
    Called "import" [VStr "openfermion"] [] m;
    Called ".FermionOperator" [value_of m] [] cls;
    Bound "FermionOperator" (value_of cls);
    (* line 193 *)
    Read "FermionOperator" (value_of cls);
    Called "__call__" [value_of cls; VStr "0^ 2"] [] f1;
    Called "mul" [VFloat 0.5; value_of f1] [] t1;
    Read "FermionOperator" (value_of cls);
    Called "__call__" [value_of cls; VStr "0 2^"] [] f2;
    Called "add" [value_of t1; value_of f2] [] op;
    Bound "openfermion_op" (value_of op);
    (* line 194 *)
    Read "qml" qml; Read "openfermion_op" (value_of op);
    Called "from_openfermion" [qml; value_of op] [] pl;
    Bound "pennylane_op" (value_of pl);
    (* line 195 *)
    Read "pennylane_op" (value_of pl);
    Called "str" [value_of pl] [] text1;
    Printed (text_of (value_of text1) +:+ newline);
    (* line 201 *)
    Read "qml" qml; Read "pennylane_op" (value_of pl);
    Called "to_openfermion" [qml; value_of pl] [] back;
    Bound "openfermion_op" (value_of back);
    (* line 202 *)
    Read "openfermion_op" (value_of back);
    Called "str" [value_of back] [] text2;
    Printed (text_of (value_of text2) +:+ newline) ].

(** The whole script: the stages one after the other, each reading what the
    earlier ones bound. *)
Definition script_trace
    (qml pl np molecule answer text1
     ops cls q1 t1 q2 t2 sum imported ty text2 text3
     pyscf gto ao2mo scf mol rhf energy
     kin nuc one_ao two_ao c1 c2 one_mo c3 two_mo enuc hf jw
     pyscf' gto' scf' cc mol' hf' myhf solver mycc st text4
     openfermion cls' f1 u1 f2 op pl' text5 back text6 : result value)
  : list event :=
  hamiltonian_builder_trace qml pl np molecule answer text1
  ++ operator_importer_trace (value_of qml)
       ops cls q1 t1 q2 t2 sum imported ty text2 text3
  ++ hartree_fock_trace pyscf gto ao2mo scf mol rhf energy
  ++ integral_pipeline_trace (value_of np) (value_of qml) (value_of ao2mo)
       (value_of mol) (value_of rhf)
       kin nuc one_ao two_ao c1 c2 one_mo c3 two_mo enuc hf jw
  ++ state_importer_trace (value_of qml)
       pyscf' gto' scf' cc mol' hf' myhf solver mycc st text4
  ++ operator_converter_trace (value_of qml)
       openfermion cls' f1 u1 f2 op pl' text5 back text6.

(** What an event does to the globals: a binding binds, nothing else
    changes them. *)
Definition binds (g : gmap string value) (e : event) : gmap string value :=
  match e with Bound x v => <[x := v]> g | _ => g end.

(** The globals after the events [l], in order, started from [g]. *)
Definition bound_after (g : gmap string value) (l : list event)
  : gmap string value := foldl binds g l.

(** [recorded m]: whatever the state and the libraries' answers, running
    [m] changes the globals by what its events bind, and by nothing else. *)
Definition recorded {W A} (m : M W A) : Prop :=
  ∀ s, ∃ new, log (m s).2 = new ++ log s
              ∧ globals (m s).2 = bound_after (globals s) (rev new).

(** * Properties *)

(** ** Axis exchange on four-index arrays *)

Lemma four_axes {A} (t : ndarray A) :
  ndim t = 4%nat → ∃ a0 a1 a2 a3, axes t = [a0; a1; a2; a3].
Proof.
  unfold ndim.
  destruct (axes t) as [|a0 [|a1 [|a2 [|a3 [|? ?]]]]]; try discriminate.
  eauto.
Qed.

Lemma chem_to_phys_four {A} (t : ndarray A) a0 a1 a2 a3 :
  axes t = [a0; a1; a2; a3] →
  chem_to_phys t = Ok (NDArray [a0; a3; a2; a1] (offset t) (data t)).
Proof.
  intros E. unfold chem_to_phys, swapaxes, transpose. rewrite E. reflexivity.
Qed.

Lemma getitem_swapped {A} (a0 a1 a2 a3 : axis) off (d : list A) i j k l :
  getitem (NDArray [a0; a3; a2; a1] off d) [i; j; k; l]
  = getitem (NDArray [a0; a1; a2; a3] off d) [i; l; k; j].
Proof.
  unfold getitem. cbn [axes offset data index_axes].
  destruct ((i <? - dim a0) || (dim a0 <=? i)); [reflexivity|].
  destruct ((j <? - dim a3) || (dim a3 <=? j)),
    ((l <? - dim a1) || (dim a1 <=? l)),
    ((k <? - dim a2) || (dim a2 <=? k)); try reflexivity.
  cbn. do 2 f_equal. lia.
Qed.

(** C1. Chemists' to physicists' notation, done by exchanging axes 1 and 3
    (counted from 0), exchanges the second and fourth index: on every
    four-index array [t] the conversion succeeds, and in its result [t']
    the selection [t'[i,j,k,l]] is the selection [t[i,l,k,j]], for all
    indices, in range or not, so that the entries agree. *)
Theorem chem_to_phys_swaps_indices {A} (t : ndarray A) :
  ndim t = 4%nat →
  ∃ t', chem_to_phys t = Ok t' ∧
    ∀ i j k l,
      getitem t' [i; j; k; l] = getitem t [i; l; k; j]
      ∧ (item <$> getitem t' [i; j; k; l]) = (item <$> getitem t [i; l; k; j]).
Proof.
  intros Hn. destruct (four_axes t Hn) as (a0 & a1 & a2 & a3 & E).
  eexists. split; [apply (chem_to_phys_four t _ _ _ _ E)|].
  intros i j k l.
  assert (getitem (NDArray [a0; a3; a2; a1] (offset t) (data t)) [i; j; k; l]
          = getitem t [i; l; k; j]) as Hget.
  { rewrite getitem_swapped. destruct t as [axs off d]. cbn in E. by subst axs. }
  split; [exact Hget | by rewrite Hget].
Qed.

(** C9. Exchanging axes 1 and 3 twice gives the array back: on every
    four-index array the first exchange succeeds, and exchanging again in
    its result returns the very array started from (same axes, same buffer),
    hence the same entry at every index. *)
Theorem chem_to_phys_involutive {A} (t : ndarray A) :
  ndim t = 4%nat →
  ∃ t', chem_to_phys t = Ok t' ∧ chem_to_phys t' = Ok t
        ∧ ∀ idx, (chem_to_phys t' ≫= λ t'', getitem t'' idx) = getitem t idx.
Proof.
  intros Hn. destruct (four_axes t Hn) as (a0 & a1 & a2 & a3 & E).
  exists (NDArray [a0; a3; a2; a1] (offset t) (data t)).
  assert (chem_to_phys (NDArray [a0; a3; a2; a1] (offset t) (data t)) = Ok t) as Back.
  { rewrite (chem_to_phys_four _ a0 a3 a2 a1) by reflexivity.
    destruct t as [axs off d]. cbn in E. by subst axs. }
  split; [apply (chem_to_phys_four t _ _ _ _ E)|].
  split; [exact Back|].
  intros idx. by rewrite Back.
Qed.

(** ** Straight-line structure *)

Section Straight.
Context {W : Type} (lib : library W).

Lemma straight_quiet {A} (m : M W A) :
  (∀ s, ∃ new, log (m s).2 = new ++ log s ∧ call_names (rev new) = []
               ∧ Forall (λ e, failure e = None) new) →
  straight m [].
Proof.
  intros H s. destruct (H s) as (new & Hlog & Hnames & Hfail).
  exists new. split; [done|]. destruct (m s).1 as [a|x].
  - done.
  - rewrite Hnames. split; [done|].
    destruct new as [|e0 older]; [done|].
    apply Forall_cons in Hfail as [? ?]. auto.
Qed.

Lemma straight_ret {A} (a : A) : straight (mret a : M W A) [].
Proof. apply straight_quiet. intros s. by exists []. Qed.

Lemma straight_lift {A} (r : result A) : straight (lift r : M W A) [].
Proof. apply straight_quiet. intros s. by exists []. Qed.

Lemma straight_load x : straight (load x : M W value) [].
Proof.
  apply straight_quiet. intros s. unfold load.
  destruct (globals s !! x) as [v|]; [exists [Read x v] | exists []]; cbn; auto.
Qed.

Lemma straight_store x v : straight (store x v : M W unit) [].
Proof. apply straight_quiet. intros s. exists [Bound x v]. cbn. auto. Qed.

Lemma straight_write text : straight (write text : M W unit) [].
Proof. apply straight_quiet. intros s. exists [Printed text]. cbn. auto. Qed.

Lemma straight_call f args kwargs : straight (call lib f args kwargs) [f].
Proof.
  intros s. unfold call. destruct (lib f args kwargs (world s)) as [r w].
  exists [Called f args kwargs r]. split; [done|].
  destruct r; cbn; auto.
Qed.

Lemma straight_computed f args kwargs r :
  straight (computed f args kwargs r : M W value) [f].
Proof.
  intros s. exists [Called f args kwargs r]. split; [done|].
  destruct r; cbn; auto.
Qed.

Lemma straight_bind {A B} (m : M W A) (f : A → M W B) l1 l2 l :
  straight m l1 → (∀ a, straight (f a) l2) → l = l1 ++ l2 →
  straight (m ≫= f) l.
Proof.
  intros Hm Hf -> s. destruct (Hm s) as (new1 & Hlog1 & H1).
  unfold mbind, M_bind. destruct (m s) as [[a|x] s1]; cbn in *.
  - destruct (Hf a s1) as (new2 & Hlog2 & H2). destruct H1 as [Hn1 Hf1].
    exists (new2 ++ new1). split; [by rewrite Hlog2, Hlog1, app_assoc|].
    unfold call_names in *. rewrite rev_app_distr, omap_app, Hn1.
    destruct (f a s1).1 as [b|x].
    + destruct H2 as [-> Hf2]. split; [done|]. by apply Forall_app.
    + destruct H2 as [Hp2 Hl2]. split; [by apply prefix_app|].
      destruct new2 as [|e2 older2]; cbn.
      * destruct new1 as [|e1 older1]; [done|].
        apply Forall_cons in Hf1 as [? ?]. auto.
      * destruct Hl2 as [? ?]. split; [done|]. by apply Forall_app.
  - exists new1. split; [done|]. destruct H1 as [Hp1 Hl1].
    split; [by apply prefix_app_r | done].
Qed.

End Straight.

Ltac straight_step :=
  lazymatch goal with
  | |- straight (mbind _ _) _ =>
      eapply straight_bind; [straight_step | intros; straight_step | reflexivity]
  | |- straight (call _ _ _ _) _ => apply straight_call
  | |- straight (computed _ _ _ _) _ => apply straight_computed
  | |- straight (load _) _ => apply straight_load
  | |- straight (store _ _) _ => apply straight_store
  | |- straight (write _) _ => apply straight_write
  | |- straight (lift _) _ => apply straight_lift
  | |- straight (mret _) _ => apply straight_ret
  end.

Ltac unfold_script :=
  unfold script, hamiltonian_builder, operator_importer, hartree_fock,
    integral_pipeline, state_importer, operator_converter,
    line50, line51, line53, line54, line57, line59, line60, line73, line75,
    line76, line78, line79, line99, line101, line104, line105, line111,
    line112, line117, line118, line126, line132, line139, line145, line167,
    line169, line170, line171, line177, line178, line192, line193, line194,
    line195, line201, line202,
    print, str, format, method, getattr, import, construct, py_mul, py_add,
    numpy_array, numpy_swapaxes.

Ltac unfold_script_in H :=
  unfold script, hamiltonian_builder, operator_importer, hartree_fock,
    integral_pipeline, state_importer, operator_converter,
    line50, line51, line53, line54, line57, line59, line60, line73, line75,
    line76, line78, line79, line99, line101, line104, line105, line111,
    line112, line117, line118, line126, line132, line139, line145, line167,
    line169, line170, line171, line177, line178, line192, line193, line194,
    line195, line201, line202,
    print, str, format, method, getattr, import, construct, py_mul, py_add,
    numpy_array, numpy_swapaxes in H.

Lemma script_straight {W} (lib : library W) : straight (script lib) script_calls.
Proof. unfold_script. straight_step. Qed.

(** ** Runs that end normally *)

Section Normal.
Context {W : Type} (lib : library W).

Lemma bind_Ok {A B} (m : M W A) (f : A → M W B) s b s' :
  (m ≫= f) s = (Ok b, s') → ∃ a s1, m s = (Ok a, s1) ∧ f a s1 = (Ok b, s').
Proof.
  unfold mbind, M_bind. destruct (m s) as [[a|e] s1]; [eauto | discriminate].
Qed.

Lemma load_Ok x g (w : W) l v s1 :
  load x (State g w l) = (Ok v, s1) →
  g !! x = Some v ∧ s1 = State g w (Read x v :: l).
Proof. unfold load. cbn. destruct (g !! x); intros [= <- <-]; auto. Qed.

Lemma store_Ok x v g (w : W) l u s1 :
  store x v (State g w l) = (Ok u, s1) →
  s1 = State (<[x := v]> g) w (Bound x v :: l).
Proof. by intros [= _ <-]. Qed.

Lemma call_Ok f a k g (w : W) l v s1 :
  call lib f a k (State g w l) = (Ok v, s1) →
  ∃ w', lib f a k w = (Ok v, w')
        ∧ s1 = State g w' (Called f a k (Ok v) :: l).
Proof.
  unfold call. cbn. destruct (lib f a k w) as [r w'].
  intros [= -> <-]. eauto.
Qed.

Lemma computed_Ok f a k r g (w : W) l v s1 :
  computed f a k r (State g w l) = (Ok v, s1) →
  r = Ok v ∧ s1 = State g w (Called f a k (Ok v) :: l).
Proof. unfold computed. intros [= -> <-]. auto. Qed.

Lemma lift_Ok {A} (r : result A) (s : state W) a s1 :
  lift r s = (Ok a, s1) → r = Ok a ∧ s1 = s.
Proof. by intros [= -> <-]. Qed.

Lemma write_Ok text g (w : W) l u s1 :
  write text (State g w l) = (Ok u, s1) →
  s1 = State g w (Printed text :: l).
Proof. by intros [= _ <-]. Qed.

End Normal.

(** Stepping through a run that ended normally: every bind is split, every
    primitive is replaced by what it did. *)
Ltac known_global H :=
  repeat first
    [ rewrite lookup_insert_eq in H
    | rewrite lookup_insert_ne in H by (intros [=]) ];
  try match goal with
      | G : ?g !! ?x = Some _ |- _ =>
          tryif constr_eq G H then fail else
          match type of H with g !! x = _ => rewrite G in H end
      end;
  injection H as <-.

Ltac global_goal :=
  repeat first
    [ rewrite lookup_insert_eq
    | rewrite lookup_insert_ne by (intros [=]) ];
  reflexivity.

Ltac run_inv H :=
  lazymatch type of H with
  | mbind _ _ _ = (Ok _, _) =>
      let H1 := fresh "H" in
      apply bind_Ok in H as (? & ? & H1 & H); run_inv H1; run_inv H
  | load _ _ = (Ok _, _) => apply load_Ok in H as [H ->]; known_global H
  | store _ _ _ = (Ok _, _) => apply store_Ok in H as ->
  | call _ _ _ _ _ = (Ok _, _) => apply call_Ok in H as (? & H & ->)
  | computed _ _ _ _ _ = (Ok _, _) => apply computed_Ok in H as [H ->]
  | lift _ _ = (Ok _, _) => apply lift_Ok in H as [H ->]
  | write _ _ = (Ok _, _) => apply write_Ok in H as ->
  end.

Lemma as_str_Ok v text : as_str v = Ok text → v = VStr text.
Proof. destruct v; intros [=]. by subst. Qed.

Lemma np_swapaxes_Ok v v' :
  np_swapaxes v (VInt 1) (VInt 3) = Ok v' →
  ∃ t t', v = VArr t ∧ v' = VArr t' ∧ chem_to_phys t = Ok t'.
Proof.
  destruct v; try discriminate; cbn.
  intros H. exists t. unfold chem_to_phys.
  destruct (swapaxes t 1 3) as [t'|]; [|discriminate].
  injection H as <-. eauto.
Qed.

Lemma np_array_one e core :
  np_array (VList [e]) = Ok core →
  ∃ c, core = VArr c ∧ (∃ rest, shape c = 1 :: rest)
       ∧ ∀ x, e = VFloat x → c = array1 [x].
Proof.
  unfold np_array. cbn.
  destruct e; cbn; try discriminate.
  - intros [= <-]. eexists. split; [done|]. split; [by exists []|].
    by intros ? [= ->].
  - destruct (mapM as_float l) as [xs|]; cbn; [|discriminate].
    rewrite Nat.eqb_refl. cbn. intros [= <-].
    eexists. split; [done|]. split; [by eexists|]. discriminate.
Qed.

Lemma call_names_calls l : call_names (calls l) = call_names l.
Proof.
  induction l as [|[] l IH]; cbn; [done|by f_equal|done..].
Qed.

(** What a normal end of the integral pipeline looks like, event by event. *)
Lemma integral_pipeline_Ok {W} (lib : library W) s s' np qml ao2mo mol rhf :
  globals s !! "np" = Some np →
  globals s !! "qml" = Some qml →
  globals s !! "ao2mo" = Some ao2mo →
  globals s !! "mol_pyscf" = Some mol →
  globals s !! "rhf" = Some rhf →
  integral_pipeline lib s = (Ok (), s') →
  ∃ kin nuc one_ao two_ao c1 c2 c3 one_mo two_mo two_mo' e core hf h,
    np_swapaxes two_mo (VInt 1) (VInt 3) = Ok two_mo'
    ∧ np_array (VList [e]) = Ok core
    ∧ globals s' !! "core_constant" = Some core
    ∧ globals s' !! "two_mo" = Some two_mo'
    ∧ globals s' !! "H" = Some h
    ∧ log s' = rev
        [Read "mol_pyscf" mol;
         Called "intor_symmetric" [mol; VStr "int1e_kin"] [] (Ok kin);
         Read "mol_pyscf" mol;
         Called "intor_symmetric" [mol; VStr "int1e_nuc"] [] (Ok nuc);
         Called "add" [kin; nuc] [] (Ok one_ao);
         Bound "one_ao" one_ao;
         Read "mol_pyscf" mol;
         Called "intor" [mol; VStr "int2e_sph"] [] (Ok two_ao);
         Bound "two_ao" two_ao;
         Read "np" np;
         Read "rhf" rhf; Called ".mo_coeff" [rhf] [] (Ok c1);
         Read "one_ao" one_ao;
         Read "rhf" rhf; Called ".mo_coeff" [rhf] [] (Ok c2);
         Called "einsum" [np; VStr "pi,pq,qj->ij"; c1; one_ao; c2] [] (Ok one_mo);
         Bound "one_mo" one_mo;
         Read "ao2mo" ao2mo; Read "two_ao" two_ao;
         Read "rhf" rhf; Called ".mo_coeff" [rhf] [] (Ok c3);
         Called "incore.full" [ao2mo; two_ao; c3] [] (Ok two_mo);
         Bound "two_mo" two_mo;
         Read "np" np; Read "two_mo" two_mo;
         Called "swapaxes" [np; two_mo; VInt 1; VInt 3] [] (Ok two_mo');
         Bound "two_mo" two_mo';
         Read "np" np;
         Read "rhf" rhf; Called "energy_nuc" [rhf] [] (Ok e);
         Called "array" [np; VList [e]] [] (Ok core);
         Bound "core_constant" core;
         Read "qml" qml;
         Read "core_constant" core; Read "one_mo" one_mo; Read "two_mo" two_mo';
         Called "qchem.fermionic_observable" [qml; core; one_mo; two_mo'] [] (Ok hf);
         Bound "H_fermionic" hf;
         Read "qml" qml; Read "H_fermionic" hf;
         Called "jordan_wigner" [qml; hf] [] (Ok h);
         Bound "H" h] ++ log s.
Proof.
  destruct s as [g w l]. cbn [globals log].
  intros Gnp Gqml Gao Gmol Grhf H.
  unfold_script_in H. run_inv H.
  do 14 eexists. cbn [globals log].
  repeat split; try eassumption; try reflexivity; global_goal.
Qed.

Lemma history_since {W} (s s' : state W) new :
  log s' = rev new ++ log s → history s' = history s ++ new.
Proof. unfold history. intros ->. by rewrite rev_app_distr, rev_involutive. Qed.

(** C4. The integral pipeline (lines 111 to 145), started where the names
    it reads are bound.  Whatever the libraries answer it asks for the same
    things in the same order.  When it ends normally the requests were
    exactly these, each fed with the answers of the ones before: the
    one-electron integrals (kinetic plus nuclear) and the two-electron
    integrals of the solver's molecule in the atomic-orbital basis; the
    contraction of each with the molecular-orbital coefficients; the
    exchange of axes 1 and 3 of the two-electron array; the nuclear
    repulsion energy, wrapped in an array; the fermionic Hamiltonian from
    that array and the two molecular-orbital arrays; its Jordan-Wigner
    image, which is what [H] is bound to in the end. *)
Theorem integral_pipeline_steps {W} (lib : library W) s np qml ao2mo mol rhf :
  globals s !! "np" = Some np →
  globals s !! "qml" = Some qml →
  globals s !! "ao2mo" = Some ao2mo →
  globals s !! "mol_pyscf" = Some mol →
  globals s !! "rhf" = Some rhf →
  straight (integral_pipeline lib) integral_pipeline_calls
  ∧ ∀ s', integral_pipeline lib s = (Ok (), s') →
    ∃ kin nuc one_ao two_ao c1 c2 c3 one_mo t t' e core hf h new,
      history s' = history s ++ new
      ∧ calls new =
          [Called "intor_symmetric" [mol; VStr "int1e_kin"] [] (Ok kin);
           Called "intor_symmetric" [mol; VStr "int1e_nuc"] [] (Ok nuc);
           Called "add" [kin; nuc] [] (Ok one_ao);
           Called "intor" [mol; VStr "int2e_sph"] [] (Ok two_ao);
           Called ".mo_coeff" [rhf] [] (Ok c1);
           Called ".mo_coeff" [rhf] [] (Ok c2);
           Called "einsum" [np; VStr "pi,pq,qj->ij"; c1; one_ao; c2] [] (Ok one_mo);
           Called ".mo_coeff" [rhf] [] (Ok c3);
           Called "incore.full" [ao2mo; two_ao; c3] [] (Ok (VArr t));
           Called "swapaxes" [np; VArr t; VInt 1; VInt 3] [] (Ok (VArr t'));
           Called "energy_nuc" [rhf] [] (Ok e);
           Called "array" [np; VList [e]] [] (Ok core);
           Called "qchem.fermionic_observable" [qml; core; one_mo; VArr t'] []
             (Ok hf);
           Called "jordan_wigner" [qml; hf] [] (Ok h)]
      ∧ chem_to_phys t = Ok t'
      ∧ globals s' !! "two_mo" = Some (VArr t')
      ∧ globals s' !! "H" = Some h.
Proof.
  intros Gnp Gqml Gao Gmol Grhf. split.
  { unfold_script. straight_step. }
  intros s' H.
  destruct (integral_pipeline_Ok lib s s' _ _ _ _ _ Gnp Gqml Gao Gmol Grhf H)
    as (kin & nuc & one_ao & two_ao & c1 & c2 & c3 & one_mo & two_mo & two_mo'
        & e & core & hf & h & Hswap & _ & _ & Gtwo & GH & Hlog).
  apply np_swapaxes_Ok in Hswap as (t & t' & -> & -> & Hswap).
  exists kin, nuc, one_ao, two_ao, c1, c2, c3, one_mo, t, t', e, core, hf, h.
  eexists. split; [exact (history_since _ _ _ Hlog)|].
  repeat split; try assumption.
Qed.

(** C7. In the integral pipeline the nuclear repulsion energy the solver
    answers with is put in an array of length one, that array is bound to
    [core_constant], and it is what the assembly function gets as its first
    argument, right after.  When the solver's answer is a float [x], the
    array is the one-axis array holding just [x], and in the assembled
    fermionic Hamiltonian, as the spec describes the assembly, [x] is the
    constant offset. *)
Theorem nuclear_energy_is_wrapped {W} (lib : library W) s s' np qml ao2mo mol rhf :
  globals s !! "np" = Some np →
  globals s !! "qml" = Some qml →
  globals s !! "ao2mo" = Some ao2mo →
  globals s !! "mol_pyscf" = Some mol →
  globals s !! "rhf" = Some rhf →
  integral_pipeline lib s = (Ok (), s') →
  ∃ e c one_mo two_mo hf new earlier later,
    history s' = history s ++ new
    ∧ calls new =
        earlier ++
        [Called "energy_nuc" [rhf] [] (Ok e);
         Called "array" [np; VList [e]] [] (Ok (VArr c));
         Called "qchem.fermionic_observable" [qml; VArr c; one_mo; two_mo] []
           (Ok hf)] ++ later
    ∧ globals s' !! "core_constant" = Some (VArr c)
    ∧ (∃ rest, shape c = 1 :: rest)
    ∧ ∀ x, e = VFloat x →
        c = array1 [x] ∧ shape c = [1] ∧ single_element c = Some x
        ∧ ∃ H, fermionic_observable (VArr c) one_mo two_mo = Some H
               ∧ constant_offset H = x
               ∧ one_electron H = one_mo ∧ two_electron H = two_mo.
Proof.
  intros Gnp Gqml Gao Gmol Grhf H.
  destruct (integral_pipeline_Ok lib s s' _ _ _ _ _ Gnp Gqml Gao Gmol Grhf H)
    as (kin & nuc & one_ao & two_ao & c1 & c2 & c3 & one_mo & two_mo & two_mo'
        & e & core & hf & h & _ & Harr & Gcore & _ & _ & Hlog).
  apply np_array_one in Harr as (c & -> & Hshape & Hfloat).
  exists e, c, one_mo, two_mo', hf.
  lazymatch type of Hlog with
  | _ = rev ?new ++ _ =>
      exists new, (take 10 (calls new)), (drop 13 (calls new))
  end.
  split; [exact (history_since _ _ _ Hlog)|].
  split; [reflexivity|]. split; [assumption|]. split; [assumption|].
  intros x ->. rewrite (Hfloat x eq_refl).
  split; [done|]. split; [done|]. split; [done|].
  eexists. split; [reflexivity|]. done.
Qed.

(** C10. In a run that ends normally [H] is bound four times, that is
    rebound three times after its first binding: to the Hamiltonian of the
    builder (line 59), to the OpenFermion operator (line 75), to the
    observable imported from it (line 76) and to the Jordan-Wigner image of
    the fermionic Hamiltonian assembled in the integral pipeline (line 145).
    The last one is what [H] holds when the script ends.  Between these
    bindings [H] is read for three prints, of the builder's Hamiltonian and
    twice of the imported observable, each before the next binding, and once
    to import the OpenFermion operator; nothing else reads or binds it. *)
Theorem H_is_rebound_three_times {W} (lib : library W) (w : W) s' :
  run lib w = (Ok (), s') →
  ∃ qml molecule answer h1 q t1 h2 h3 ty t2 t3 core one_mo two_mo hf h4
    before between1 between2 after,
    unpack2 answer = Ok (h1, q)
    ∧ history s' =
        before ++
        [Called "qchem.molecular_hamiltonian" [qml; molecule]
           [("method", VStr "pyscf")] (Ok answer);
         Bound "H" h1; Bound "qubits" q;
         Read "H" h1; Called "str" [h1] [] (Ok (VStr t1));
         Printed (t1 +:+ newline)] ++
        between1 ++
        [Bound "H" h2;
         Read "qml" qml; Read "H" h2;
         Called "qchem.import_operator" [qml; h2] [] (Ok h3);
         Bound "H" h3;
         Read "H" h3; Called "type" [h3] [] (Ok ty);
         Called "format" [ty] [] (Ok (VStr t2));
         Printed (("Type: " +:+ newline +:+ " " +:+ t2 +:+ " " +:+ newline)
                  +:+ newline);
         Read "H" h3; Called "format" [h3] [] (Ok (VStr t3));
         Printed (("Hamiltonian: " +:+ newline +:+ " " +:+ t3) +:+ newline)] ++
        between2 ++
        [Called "qchem.fermionic_observable" [qml; core; one_mo; two_mo] []
           (Ok hf);
         Bound "H_fermionic" hf;
         Read "qml" qml; Read "H_fermionic" hf;
         Called "jordan_wigner" [qml; hf] [] (Ok h4);
         Bound "H" h4] ++
        after
    ∧ untouched "H" before = true
    ∧ untouched "H" between1 = true
    ∧ untouched "H" between2 = true
    ∧ untouched "H" after = true
    ∧ bindings "H" (history s') = [h1; h2; h3; h4]
    ∧ globals s' !! "H" = Some h4.
Proof.
  intros H. unfold run, initial in H. unfold_script_in H. run_inv H.
  repeat match goal with
         | E : as_str _ = Ok _ |- _ => apply as_str_Ok in E as ->
         | E : unpack2 _ = Ok ?p |- _ => destruct p as [h1 q]; cbn [fst snd] in *
         end.
  match goal with
  | |- context [history ?s] =>
      let h := eval vm_compute in (history s) in
      change (history s) with h;
      do 16 eexists;
      exists (take 16 h), (take 10 (drop 22 h)), (take 53 (drop 44 h)),
        (drop 103 h)
  end.
  cbn [take drop app].
  split; [eassumption|].
  split; [reflexivity|].
  repeat split; reflexivity.
Qed.

(** ** Runs, however they end *)

Section Outcome.
Context {W : Type} (lib : library W).

Lemma bind_any {A B} (m : M W A) (f : A → M W B) s r s' :
  (m ≫= f) s = (r, s') →
  (∃ a s1, m s = (Ok a, s1) ∧ f a s1 = (r, s'))
  ∨ (∃ e, m s = (Raise e, s') ∧ r = Raise e).
Proof.
  unfold mbind, M_bind. destruct (m s) as [[a|e] s1].
  - intros H. left. eauto.
  - intros [= <- <-]. right. eauto.
Qed.

Lemma load_any x g (w : W) l r s' :
  load x (State g w l) = (r, s') →
  (∃ v, g !! x = Some v ∧ r = Ok v ∧ s' = State g w (Read x v :: l))
  ∨ (g !! x = None ∧ r = Raise (NameError x) ∧ s' = State g w l).
Proof.
  unfold load. cbn. destruct (g !! x) as [v|]; intros [= <- <-]; eauto.
Qed.

Lemma store_any x v g (w : W) l r s' :
  store x v (State g w l) = (r, s') →
  r = Ok () ∧ s' = State (<[x := v]> g) w (Bound x v :: l).
Proof. by intros [= <- <-]. Qed.

Lemma call_any f a k g (w : W) l r s' :
  call lib f a k (State g w l) = (r, s') →
  ∃ w', lib f a k w = (r, w') ∧ s' = State g w' (Called f a k r :: l).
Proof.
  unfold call. cbn. destruct (lib f a k w) as [r0 w'].
  intros [= <- <-]. eauto.
Qed.

Lemma computed_any f a k r0 g (w : W) l r s' :
  computed f a k r0 (State g w l) = (r, s') →
  r0 = r ∧ s' = State g w (Called f a k r :: l).
Proof. unfold computed. by intros [= <- <-]. Qed.

Lemma lift_any {A} (r0 : result A) (s : state W) r s' :
  lift r0 s = (r, s') → r0 = r ∧ s' = s.
Proof. by intros [= <- <-]. Qed.

Lemma write_any text g (w : W) l r s' :
  write text (State g w l) = (r, s') →
  r = Ok () ∧ s' = State g w (Printed text :: l).
Proof. by intros [= <- <-]. Qed.

End Outcome.

(** Stepping through a run whatever its outcome: where the run can stop,
    the goal splits, and [leaf] is run on every way it can have ended. *)
Ltac no_such_global H :=
  repeat first
    [ rewrite lookup_insert_eq in H
    | rewrite lookup_insert_ne in H by (intros [=]) ];
  try match goal with
      | G : ?g !! ?x = Some _ |- _ =>
          tryif constr_eq G H then fail else
          match type of H with g !! x = _ => rewrite G in H end
      end;
  discriminate H.

Ltac run_all H leaf :=
  lazymatch type of H with
  | mbind _ _ _ = _ =>
      let H1 := fresh "H" in
      apply bind_any in H as [(? & ? & H1 & H) | (? & H & ?)];
      [ run_inv H1; run_all H leaf
      | simplify_eq; run_all H leaf ]
  | load _ _ = _ =>
      apply load_any in H as [(? & H & ? & ?) | (H & ? & ?)];
      [ known_global H; simplify_eq; leaf | no_such_global H ]
  | store _ _ _ = _ => apply store_any in H as [? ?]; simplify_eq; leaf
  | call _ _ _ _ _ = _ => apply call_any in H as (? & H & ?); simplify_eq; leaf
  | computed _ _ _ _ _ = _ => apply computed_any in H as [H ?]; simplify_eq; leaf
  | lift _ _ = _ => apply lift_any in H as [H ?]; simplify_eq; leaf
  | write _ _ = _ => apply write_any in H as [? ?]; simplify_eq; leaf
  end.

(** The events of a log that were added on top of [l]. *)
Ltac events_above X l k :=
  lazymatch X with
  | l => k (@nil event)
  | ?e :: ?X' => events_above X' l ltac:(fun n => k (e :: n))
  end.

Ltac new_events :=
  lazymatch goal with
  | |- ∃ new, ?X = new ++ ?l ∧ _ =>
      events_above X l ltac:(fun n => exists n)
  end.

(** ** The script as one fixed sequence *)

Lemma until_stop_all l : outcome l = Ok () → until_stop l = l.
Proof.
  induction l as [|e l IH]; cbn; [done|].
  destruct (stops e); [discriminate|]. intros H. by rewrite IH.
Qed.

Lemma until_stop_app_Ok l1 l2 :
  outcome l1 = Ok () →
  until_stop (l1 ++ l2) = until_stop l1 ++ until_stop l2
  ∧ outcome (l1 ++ l2) = outcome l2.
Proof.
  induction l1 as [|e l1 IH]; cbn; [done|].
  destruct (stops e); [discriminate|].
  intros H. destruct (IH H) as [-> ->]. done.
Qed.

Lemma until_stop_app_Raise l1 l2 x :
  outcome l1 = Raise x →
  until_stop (l1 ++ l2) = until_stop l1 ∧ outcome (l1 ++ l2) = Raise x.
Proof.
  induction l1 as [|e l1 IH]; cbn; [discriminate|].
  destruct (stops e); [done|].
  intros H. destruct (IH H) as [-> ->]. done.
Qed.

Lemma until_stop_stopped l e x :
  e ∈ until_stop l → stops e = Some x →
  outcome l = Raise x ∧ last (until_stop l) = Some e.
Proof.
  induction l as [|e0 l IH]; cbn; [by intros ?%elem_of_nil|].
  destruct (stops e0) as [y|] eqn:E.
  - intros ->%list_elem_of_singleton Hx. split; [congruence|done].
  - intros [->|He]%elem_of_cons Hx; [congruence|].
    destruct (IH He Hx) as [-> Hlast]. split; [done|].
    destruct (until_stop l); [by apply elem_of_nil in He|]. exact Hlast.
Qed.

Lemma outcome_Raise l x :
  outcome l = Raise x → ∃ e, last (until_stop l) = Some e ∧ stops e = Some x.
Proof.
  induction l as [|e0 l IH]; cbn; [discriminate|].
  destruct (stops e0) as [y|] eqn:E.
  - intros [= ->]. by exists e0.
  - intros H. destruct (IH H) as (e & Hlast & He). exists e. split; [|done].
    destruct (until_stop l); [discriminate|]. exact Hlast.
Qed.

(** The answers of the libraries among the events [X] (newest first), in the
    order they were given. *)
Ltac answers_in X acc :=
  lazymatch X with
  | @nil _ => acc
  | Called "array" _ _ _ :: ?X' => answers_in X' acc
  | Called "swapaxes" _ _ _ :: ?X' => answers_in X' acc
  | Called _ _ _ ?r :: ?X' => answers_in X' constr:(r :: acc)
  | _ :: ?X' => answers_in X' acc
  end.

Ltac give_answers rs :=
  lazymatch goal with
  | |- @ex (result value) _ =>
      lazymatch rs with
      | ?r :: ?rs' => exists r; give_answers rs'
      | _ => exists (Ok VNone); give_answers rs
      end
  | |- _ => idtac
  end.

Ltac use_answers :=
  repeat match goal with
         | E : as_str _ = Ok _ |- _ => apply as_str_Ok in E as ->
         end;
  repeat match goal with
         | E : unpack2 _ = _ |- _ => rewrite E
         | E : as_str _ = _ |- _ => rewrite E
         | E : np_array _ = _ |- _ => rewrite E
         | E : np_swapaxes _ _ _ = _ |- _ => rewrite E
         end.

(** Every way a stage can end: the new events are read off the log, the
    answers off the events, and the trace is run up to where it stops. *)
Ltac trace_leaf :=
  cbn [log globals];
  lazymatch goal with
  | |- ∃ new, ?X = new ++ ?l ∧ _ =>
      events_above X l ltac:(fun n =>
        exists n; split; [reflexivity|];
        let rs := answers_in n constr:(@nil (result value)) in
        give_answers rs)
  end;
  cbv beta iota zeta delta
    [hamiltonian_builder_trace operator_importer_trace hartree_fock_trace
     integral_pipeline_trace state_importer_trace operator_converter_trace
     value_of unpacked text_of water_coordinates];
  repeat (progress (cbn [until_stop outcome stops String.eqb Ascii.eqb Bool.eqb orb];
                    use_answers));
  (split; [reflexivity|]);
  first
    [ reflexivity
    | (split; [reflexivity|]);
      let Hr := fresh in
      intros Hr; first [ discriminate Hr | repeat split; global_goal ] ].

Lemma hamiltonian_builder_run {W} (lib : library W) s r s' :
  hamiltonian_builder lib s = (r, s') →
  ∃ new, log s' = new ++ log s ∧
  ∃ qml pl np molecule answer text,
    rev new = until_stop (hamiltonian_builder_trace qml pl np molecule answer text)
    ∧ r = outcome (hamiltonian_builder_trace qml pl np molecule answer text)
    ∧ (r = Ok () →
       globals s' !! "qml" = Some (value_of qml)
       ∧ globals s' !! "np" = Some (value_of np)).
Proof.
  destruct s as [g w l]. intros H.
  unfold_script_in H. run_all H trace_leaf.
Qed.

Lemma operator_importer_run {W} (lib : library W) s r s' qml :
  globals s !! "qml" = Some qml →
  operator_importer lib s = (r, s') →
  ∃ new, log s' = new ++ log s ∧
  ∃ m cls q1 t1 q2 t2 sum imported ty text2 text3,
    rev new = until_stop (operator_importer_trace qml m cls q1 t1 q2 t2 sum
                            imported ty text2 text3)
    ∧ r = outcome (operator_importer_trace qml m cls q1 t1 q2 t2 sum
                     imported ty text2 text3)
    ∧ (r = Ok () →
       globals s' !! "qml" = globals s !! "qml"
       ∧ globals s' !! "np" = globals s !! "np").
Proof.
  destruct s as [g w l]. cbn [globals]. intros Gqml H.
  unfold_script_in H. run_all H trace_leaf.
Qed.

Lemma hartree_fock_run {W} (lib : library W) s r s' :
  hartree_fock lib s = (r, s') →
  ∃ new, log s' = new ++ log s ∧
  ∃ m gto ao2mo scf mol rhf energy,
    rev new = until_stop (hartree_fock_trace m gto ao2mo scf mol rhf energy)
    ∧ r = outcome (hartree_fock_trace m gto ao2mo scf mol rhf energy)
    ∧ (r = Ok () →
       globals s' !! "ao2mo" = Some (value_of ao2mo)
       ∧ globals s' !! "mol_pyscf" = Some (value_of mol)
       ∧ globals s' !! "rhf" = Some (value_of rhf)
       ∧ globals s' !! "qml" = globals s !! "qml"
       ∧ globals s' !! "np" = globals s !! "np").
Proof.
  destruct s as [g w l]. intros H.
  unfold_script_in H. run_all H trace_leaf.
Qed.

Lemma integral_pipeline_run {W} (lib : library W) s r s' np qml ao2mo mol rhf :
  globals s !! "np" = Some np →
  globals s !! "qml" = Some qml →
  globals s !! "ao2mo" = Some ao2mo →
  globals s !! "mol_pyscf" = Some mol →
  globals s !! "rhf" = Some rhf →
  integral_pipeline lib s = (r, s') →
  ∃ new, log s' = new ++ log s ∧
  ∃ kin nuc one_ao two_ao c1 c2 one_mo c3 two_mo e hf h,
    rev new = until_stop (integral_pipeline_trace np qml ao2mo mol rhf kin nuc
                            one_ao two_ao c1 c2 one_mo c3 two_mo e hf h)
    ∧ r = outcome (integral_pipeline_trace np qml ao2mo mol rhf kin nuc
                     one_ao two_ao c1 c2 one_mo c3 two_mo e hf h)
    ∧ (r = Ok () → globals s' !! "qml" = globals s !! "qml").
Proof.
  destruct s as [g w l]. cbn [globals].
  intros Gnp Gqml Gao Gmol Grhf H.
  unfold_script_in H. run_all H trace_leaf.
Qed.

Lemma state_importer_run {W} (lib : library W) s r s' qml :
  globals s !! "qml" = Some qml →
  state_importer lib s = (r, s') →
  ∃ new, log s' = new ++ log s ∧
  ∃ m gto scf cc mol hf myhf solver mycc st text,
    rev new = until_stop (state_importer_trace qml m gto scf cc mol hf myhf
                            solver mycc st text)
    ∧ r = outcome (state_importer_trace qml m gto scf cc mol hf myhf
                     solver mycc st text)
    ∧ (r = Ok () → globals s' !! "qml" = globals s !! "qml").
Proof.
  destruct s as [g w l]. cbn [globals]. intros Gqml H.
  unfold_script_in H. run_all H trace_leaf.
Qed.

Lemma operator_converter_run {W} (lib : library W) s r s' qml :
  globals s !! "qml" = Some qml →
  operator_converter lib s = (r, s') →
  ∃ new, log s' = new ++ log s ∧
  ∃ m cls f1 t1 f2 op pl text1 back text2,
    rev new = until_stop (operator_converter_trace qml m cls f1 t1 f2 op pl
                            text1 back text2)
    ∧ r = outcome (operator_converter_trace qml m cls f1 t1 f2 op pl
                     text1 back text2).
Proof.
  destruct s as [g w l]. cbn [globals]. intros Gqml H.
  unfold_script_in H.
  run_all H trace_leaf.
Qed.

(** Putting the stages together. *)

Lemma run_through (h : list event) (r : result unit) T :
  h = until_stop T ∧ r = outcome T →
  h = until_stop T ∧ r = outcome T ∧ (r = Ok () → h = T).
Proof.
  intros [Hh Hr]. split; [done|]. split; [done|].
  intros ->. rewrite Hh. by apply until_stop_all.
Qed.

Ltac stage_passed :=
  lazymatch goal with
  | O : Ok () = outcome ?T |- context [until_stop (?T ++ ?R)] =>
      destruct (until_stop_app_Ok T R (eq_sym O)) as [-> ->]
  end.

Ltac stage_stopped :=
  lazymatch goal with
  | O : Raise ?x = outcome ?T |- context [until_stop (?T ++ ?R)] =>
      destruct (until_stop_app_Raise T R x (eq_sym O)) as [-> ->]
  | |- _ => idtac
  end.

Ltac run_ends :=
  give_answers constr:(@nil (result value));
  apply run_through; unfold script_trace;
  repeat stage_passed; stage_stopped;
  split;
  [ unfold history;
    repeat match goal with
           | L : log ?s = _ |- context [log ?s] => rewrite L
           end;
    cbn [initial log]; rewrite app_nil_r, ?rev_app_distr;
    repeat match goal with
           | E : rev ?n = until_stop _ |- context [rev ?n] => rewrite E
           end;
    rewrite <- ?app_assoc; reflexivity
  | first [reflexivity | assumption] ].

Lemma script_run {W} (lib : library W) (w : W) r s' :
  run lib w = (r, s') →
  ∃ qml pl np molecule answer text1
    ops cls q1 t1 q2 t2 sum imported ty text2 text3
    pyscf gto ao2mo scf mol rhf energy
    kin nuc one_ao two_ao c1 c2 one_mo c3 two_mo enuc hf jw
    pyscf' gto' scf' cc mol' hf' myhf solver mycc st text4
    openfermion cls' f1 u1 f2 op pl' text5 back text6,
    let T :=
      script_trace qml pl np molecule answer text1
        ops cls q1 t1 q2 t2 sum imported ty text2 text3
        pyscf gto ao2mo scf mol rhf energy
        kin nuc one_ao two_ao c1 c2 one_mo c3 two_mo enuc hf jw
        pyscf' gto' scf' cc mol' hf' myhf solver mycc st text4
        openfermion cls' f1 u1 f2 op pl' text5 back text6 in
    history s' = until_stop T ∧ r = outcome T ∧ (r = Ok () → history s' = T).
Proof.
  unfold run, script. intros H.
  apply bind_any in H as [([] & s1 & H1 & H) | (x & H1 & ->)];
    destruct (hamiltonian_builder_run lib _ _ _ H1)
      as (new1 & L1 & qml & pl & np & molecule & answer & text1 & E1 & O1 & G1);
    exists qml, pl, np, molecule, answer, text1; [|run_ends].
  destruct (G1 eq_refl) as [Q1 N1].
  apply bind_any in H as [([] & s2 & H2 & H) | (x & H2 & ->)];
    destruct (operator_importer_run lib _ _ _ _ Q1 H2)
      as (new2 & L2 & ops & cls & q1 & t1 & q2 & t2 & sum & imported & ty
          & text2 & text3 & E2 & O2 & G2);
    exists ops, cls, q1, t1, q2, t2, sum, imported, ty, text2, text3;
    [|run_ends].
  destruct (G2 eq_refl) as [Q2 N2]. rewrite Q1 in Q2. rewrite N1 in N2.
  apply bind_any in H as [([] & s3 & H3 & H) | (x & H3 & ->)];
    destruct (hartree_fock_run lib _ _ _ H3)
      as (new3 & L3 & pyscf & gto & ao2mo & scf & mol & rhf & energy
          & E3 & O3 & G3);
    exists pyscf, gto, ao2mo, scf, mol, rhf, energy; [|run_ends].
  destruct (G3 eq_refl) as (A3 & M3 & R3 & Q3 & N3).
  rewrite Q2 in Q3. rewrite N2 in N3.
  apply bind_any in H as [([] & s4 & H4 & H) | (x & H4 & ->)];
    destruct (integral_pipeline_run lib _ _ _ _ _ _ _ _ N3 Q3 A3 M3 R3 H4)
      as (new4 & L4 & kin & nuc & one_ao & two_ao & c1 & c2 & one_mo & c3
          & two_mo & enuc & hf & jw & E4 & O4 & G4);
    exists kin, nuc, one_ao, two_ao, c1, c2, one_mo, c3, two_mo, enuc, hf, jw;
    [|run_ends].
  pose proof (G4 eq_refl) as Q4. rewrite Q3 in Q4.
  apply bind_any in H as [([] & s5 & H5 & H) | (x & H5 & ->)];
    destruct (state_importer_run lib _ _ _ _ Q4 H5)
      as (new5 & L5 & pyscf' & gto' & scf' & cc & mol' & hf' & myhf & solver
          & mycc & st & text4 & E5 & O5 & G5);
    exists pyscf', gto', scf', cc, mol', hf', myhf, solver, mycc, st, text4;
    [|run_ends].
  pose proof (G5 eq_refl) as Q5. rewrite Q4 in Q5.
  destruct (operator_converter_run lib _ _ _ _ Q5 H)
    as (new6 & L6 & openfermion & cls' & f1 & u1 & f2 & op & pl' & text5
        & back & text6 & E6 & O6).
  exists openfermion, cls', f1, u1, f2, op, pl', text5, back, text6.
  run_ends.
Qed.

(** The globals follow the bindings. *)
Section Recorded.
Context {W : Type} (lib : library W).

Lemma recorded_ret {A} (a : A) : recorded (mret a : M W A).
Proof. intros s. by exists []. Qed.

Lemma recorded_lift {A} (r : result A) : recorded (lift r : M W A).
Proof. intros s. by exists []. Qed.

Lemma recorded_load x : recorded (load x : M W value).
Proof.
  intros s. unfold load.
  destruct (globals s !! x) as [v|]; [by exists [Read x v] | by exists []].
Qed.

Lemma recorded_store x v : recorded (store x v : M W unit).
Proof. intros s. by exists [Bound x v]. Qed.

Lemma recorded_write text : recorded (write text : M W unit).
Proof. intros s. by exists [Printed text]. Qed.

Lemma recorded_call f args kwargs : recorded (call lib f args kwargs).
Proof.
  intros s. unfold call. destruct (lib f args kwargs (world s)) as [r w].
  by exists [Called f args kwargs r].
Qed.

Lemma recorded_computed f args kwargs r :
  recorded (computed f args kwargs r : M W value).
Proof. intros s. by exists [Called f args kwargs r]. Qed.

Lemma recorded_bind {A B} (m : M W A) (f : A → M W B) :
  recorded m → (∀ a, recorded (f a)) → recorded (m ≫= f).
Proof.
  intros Hm Hf s. destruct (Hm s) as (new1 & Hlog1 & H1).
  unfold mbind, M_bind. destruct (m s) as [[a|x] s1]; cbn in *.
  - destruct (Hf a s1) as (new2 & Hlog2 & H2).
    exists (new2 ++ new1). split; [by rewrite Hlog2, Hlog1, app_assoc|].
    unfold bound_after in *. by rewrite rev_app_distr, foldl_app, <- H1, <- H2.
  - by exists new1.
Qed.

End Recorded.

Ltac recorded_step :=
  lazymatch goal with
  | |- recorded (mbind _ _) =>
      apply recorded_bind; [recorded_step | intros; recorded_step]
  | |- recorded (call _ _ _ _) => apply recorded_call
  | |- recorded (computed _ _ _ _) => apply recorded_computed
  | |- recorded (load _) => apply recorded_load
  | |- recorded (store _ _) => apply recorded_store
  | |- recorded (write _) => apply recorded_write
  | |- recorded (lift _) => apply recorded_lift
  | |- recorded (mret _) => apply recorded_ret
  end.

Lemma script_recorded {W} (lib : library W) : recorded (script lib).
Proof. unfold_script. recorded_step. Qed.

(** C8. The script is a straight line.  There is one sequence of events,
    [script_trace], in which nothing but the answers of the libraries is left
    open: every request, with the arguments it takes from the answers before
    it, every read and binding of a name and every print is written down
    once, in the order of the source.  Whatever the libraries answer, a run
    is that sequence from its first event up to and including the first
    event that stops it, and the whole sequence when none does.  So nothing
    is skipped, repeated or chosen according to a value.  No exception is
    handled: an event that stops the run (a request answered with an
    exception, an answer of the Hamiltonian builder that does not unpack
    into two, an answer to [str] or [format] that is not a string) is the
    last event of the run and its exception is the outcome; and a run that
    ends with an exception ends on such an event, with that exception.  The
    globals a run leaves are those its bindings set, in order, and nothing
    else.  The names of the requests form a prefix of one fixed list, the
    whole list when the run ends normally. *)
Theorem script_is_straight_line {W} (lib : library W) (w : W) :
  let r := (run lib w).1 in
  let h := history (run lib w).2 in
  (∃ qml pl np molecule answer text1
     ops cls q1 t1 q2 t2 sum imported ty text2 text3
     pyscf gto ao2mo scf mol rhf energy
     kin nuc one_ao two_ao c1 c2 one_mo c3 two_mo enuc hf jw
     pyscf' gto' scf' cc mol' hf' myhf solver mycc st text4
     openfermion cls' f1 u1 f2 op pl' text5 back text6,
     let T :=
       script_trace qml pl np molecule answer text1
         ops cls q1 t1 q2 t2 sum imported ty text2 text3
         pyscf gto ao2mo scf mol rhf energy
         kin nuc one_ao two_ao c1 c2 one_mo c3 two_mo enuc hf jw
         pyscf' gto' scf' cc mol' hf' myhf solver mycc st text4
         openfermion cls' f1 u1 f2 op pl' text5 back text6 in
     h = until_stop T ∧ r = outcome T ∧ (r = Ok () → h = T))
  ∧ globals (run lib w).2 = bound_after ∅ h
  ∧ (∀ e x, e ∈ h → stops e = Some x → r = Raise x ∧ last h = Some e)
  ∧ (∀ x, r = Raise x → ∃ e, last h = Some e ∧ stops e = Some x)
  ∧ call_names h `prefix_of` script_calls
  ∧ (r = Ok () → call_names h = script_calls).
Proof.
  cbn zeta.
  pose proof (script_straight lib (initial w)) as Hnames.
  pose proof (script_recorded lib (initial w)) as Hbound.
  fold (run lib w) in Hnames, Hbound.
  destruct (run lib w) as [r s'] eqn:H. cbn [fst snd] in *.
  pose proof (script_run lib w r s' H) as Hrun.
  split; [exact Hrun|].
  split.
  { destruct Hbound as (new & Hlog & ->).
    unfold history. rewrite Hlog. cbn [initial log globals].
    by rewrite app_nil_r. }
  assert (∃ T, history s' = until_stop T ∧ r = outcome T) as (T & Hh & Hr).
  { do 57 (destruct Hrun as [? Hrun]). cbn zeta in Hrun.
    destruct Hrun as (Hh & Hr & _). eauto. }
  split.
  { intros e x He Hx. rewrite Hh in He |- *. rewrite Hr.
    by apply until_stop_stopped. }
  split.
  { intros x Hx. rewrite Hh. apply outcome_Raise. congruence. }
  destruct Hnames as (new & Hlog & Hnames).
  unfold history. rewrite Hlog. cbn [initial log]. rewrite app_nil_r.
  destruct r as [u|y].
  - destruct Hnames as [-> _]. done.
  - destruct Hnames as [Hprefix _]. split; [done|]. discriminate.
Qed.

(** ** The properties on the toy run *)

Lemma toy_ready_globals :
  globals toy_ready !! "np" = Some (VObj 3)
  ∧ globals toy_ready !! "qml" = Some (VObj 1)
  ∧ globals toy_ready !! "ao2mo" = Some (VObj 20)
  ∧ globals toy_ready !! "mol_pyscf" = Some (VObj 22)
  ∧ globals toy_ready !! "rhf" = Some (VObj 23).
Proof. repeat split; vm_compute; reflexivity. Qed.

Lemma toy_pipeline_ends :
  integral_pipeline toy_lib toy_ready = (Ok (), toy_assembled).
Proof. vm_compute. reflexivity. Qed.

Lemma toy_run_ends : run toy_lib 0%nat = (Ok (), toy_final).
Proof. vm_compute. reflexivity. Qed.

Lemma toy_run_ok : (run toy_lib 0%nat).1 = Ok ().
Proof. vm_compute. reflexivity. Qed.

Lemma triple_run_raises : (run triple_lib 0%nat).1 = Raise ValueError.
Proof. vm_compute. reflexivity. Qed.

Lemma chem_to_phys_swaps_indices_witness :
  ndim toy_two_ao = 4%nat
  ∧ ∃ t', chem_to_phys toy_two_ao = Ok t' ∧
      ∀ i j k l,
        getitem t' [i; j; k; l] = getitem toy_two_ao [i; l; k; j]
        ∧ (item <$> getitem t' [i; j; k; l])
          = (item <$> getitem toy_two_ao [i; l; k; j]).
Proof.
  split; [reflexivity|].
  apply (chem_to_phys_swaps_indices toy_two_ao). reflexivity.
Defined.

Lemma chem_to_phys_involutive_witness :
  ndim toy_two_ao = 4%nat
  ∧ ∃ t', chem_to_phys toy_two_ao = Ok t' ∧ chem_to_phys t' = Ok toy_two_ao.
Proof.
  split; [reflexivity|].
  destruct (chem_to_phys_involutive toy_two_ao eq_refl) as (t' & H1 & H2 & _).
  exists t'. split; assumption.
Defined.

Lemma script_is_straight_line_witness :
  (run triple_lib 0%nat).1 = Raise ValueError
  ∧ ∃ e, last (history (run triple_lib 0%nat).2) = Some e
         ∧ stops e = Some ValueError.
Proof.
  split; [exact triple_run_raises|].
  destruct (script_is_straight_line triple_lib 0%nat)
    as (_ & _ & _ & Hwhy & _).
  exact (Hwhy _ triple_run_raises).
Defined.

Lemma integral_pipeline_steps_witness :
  (globals toy_ready !! "np" = Some (VObj 3)
   ∧ globals toy_ready !! "qml" = Some (VObj 1)
   ∧ globals toy_ready !! "ao2mo" = Some (VObj 20)
   ∧ globals toy_ready !! "mol_pyscf" = Some (VObj 22)
   ∧ globals toy_ready !! "rhf" = Some (VObj 23))
  ∧ integral_pipeline toy_lib toy_ready = (Ok (), toy_assembled)
  ∧ ∃ new, history toy_assembled = history toy_ready ++ new
           ∧ call_names new = integral_pipeline_calls
           ∧ ∃ t t', chem_to_phys t = Ok t'
                     ∧ globals toy_assembled !! "two_mo" = Some (VArr t').
Proof.
  split; [exact toy_ready_globals|].
  split; [exact toy_pipeline_ends|].
  destruct toy_ready_globals as (Gnp & Gqml & Gao & Gmol & Grhf).
  destruct (integral_pipeline_steps toy_lib toy_ready _ _ _ _ _
              Gnp Gqml Gao Gmol Grhf) as [_ Hsteps].
  destruct (Hsteps _ toy_pipeline_ends)
    as (kin & nuc & one_ao & two_ao & c1 & c2 & c3 & one_mo & t & t' & e & core
        & hf & h & new & Hhist & Hcalls & Hswap & Gtwo & _).
  exists new. split; [exact Hhist|]. split.
  - rewrite <- call_names_calls, Hcalls. reflexivity.
  - exists t, t'. split; assumption.
Defined.

Lemma nuclear_energy_is_wrapped_witness :
  (globals toy_ready !! "np" = Some (VObj 3)
   ∧ globals toy_ready !! "qml" = Some (VObj 1)
   ∧ globals toy_ready !! "ao2mo" = Some (VObj 20)
   ∧ globals toy_ready !! "mol_pyscf" = Some (VObj 22)
   ∧ globals toy_ready !! "rhf" = Some (VObj 23))
  ∧ integral_pipeline toy_lib toy_ready = (Ok (), toy_assembled)
  ∧ ∃ c, globals toy_assembled !! "core_constant" = Some (VArr c)
         ∧ ∃ rest, shape c = 1 :: rest.
Proof.
  split; [exact toy_ready_globals|].
  split; [exact toy_pipeline_ends|].
  destruct toy_ready_globals as (Gnp & Gqml & Gao & Gmol & Grhf).
  destruct (nuclear_energy_is_wrapped toy_lib toy_ready toy_assembled _ _ _ _ _
              Gnp Gqml Gao Gmol Grhf toy_pipeline_ends)
    as (e & c & one_mo & two_mo & hf & new & earlier & later
        & _ & _ & Gcore & Hshape & _).
  exists c. split; assumption.
Defined.

Lemma H_is_rebound_three_times_witness :
  run toy_lib 0%nat = (Ok (), toy_final)
  ∧ ∃ h1 h2 h3 h4,
      bindings "H" (history toy_final) = [h1; h2; h3; h4]
      ∧ globals toy_final !! "H" = Some h4.
Proof.
  split; [exact toy_run_ends|].
  destruct (H_is_rebound_three_times toy_lib 0%nat toy_final toy_run_ends)
    as (qml & molecule & answer & h1 & q & t1 & h2 & h3 & ty & t2 & t3 & core
        & one_mo & two_mo & hf & h4 & before & between1 & between2 & after
        & _ & _ & _ & _ & _ & _ & Hb & GH).
  exists h1, h2, h3, h4. split; assumption.
Defined.

(** ** Concrete checks *)

Example chem_to_phys_2222 :
  (t' ← chem_to_phys toy_two_ao; r ← getitem t' [0; 1; 0; 0]; Ok (item r))
  = Ok (Some 1%float)
  ∧ (r ← getitem toy_two_ao [0; 0; 0; 1]; Ok (item r)) = Ok (Some 1%float).
Proof. split; reflexivity. Qed.

Example chem_to_phys_needs_four_axes :
  chem_to_phys toy_matrix = Raise AxisError.
Proof. reflexivity. Qed.

Example toy_bindings_of_H :
  bindings "H" (history toy_final) = [VObj 5; VObj 13; VObj 14; VObj 36]
  ∧ globals toy_final !! "H" = Some (VObj 36).
Proof. split; vm_compute; reflexivity. Qed.

Example toy_core_constant :
  globals toy_final !! "core_constant" = Some (VArr (array1 [9.19%float]))
  ∧ (fermionic_observable (VArr (array1 [9.19%float])) VNone VNone
       ≫= λ H, Some (constant_offset H)) = Some 9.19%float.
Proof. split; vm_compute; reflexivity. Qed.

(** With a solver that fails the run stops there, with that exception. *)
Example failure_propagates :
  (run failing_lib 0%nat).1 = Raise (LibraryError "no convergence")
  ∧ call_names (history (run failing_lib 0%nat).2)
    = hamiltonian_builder_calls ++ operator_importer_calls ++ hartree_fock_calls.
Proof. split; vm_compute; reflexivity. Qed.

(** * Further properties *)

(** ** Axis exchange on arrays with four axes or more *)

Lemma omap_lookup_seq {A} (pre rest : list A) :
  omap (λ p, (pre ++ rest) !! p) (seq (length pre) (length rest)) = rest.
Proof.
  revert pre. induction rest as [|x rest IH]; intros pre; [done|].
  cbn [length seq].
  change (omap ?f (?p :: ?l)) with
    (match f p with Some y => y :: omap f l | None => omap f l end).
  cbn beta. rewrite list_lookup_middle by done.
  f_equal.
  specialize (IH (pre ++ [x])).
  rewrite <- app_assoc, length_app in IH. cbn in IH.
  by rewrite Nat.add_1_r in IH.
Qed.

Lemma chem_to_phys_axes {A} (t : ndarray A) a0 a1 a2 a3 rest :
  axes t = a0 :: a1 :: a2 :: a3 :: rest →
  chem_to_phys t = Ok (NDArray (a0 :: a3 :: a2 :: a1 :: rest) (offset t) (data t)).
Proof.
  intros E. unfold chem_to_phys, swapaxes. rewrite E.
  set (m := length rest).
  assert (length (a0 :: a1 :: a2 :: a3 :: rest) = S (S (S (S m)))) as -> by done.
  assert (normalize_axis 1 (S (S (S (S m)))) = Ok 1%nat) as ->.
  { unfold normalize_axis.
    destruct (Z.ltb_spec 1 (- Z.of_nat (S (S (S (S m)))))); [lia|].
    destruct (Z.leb_spec (Z.of_nat (S (S (S (S m))))) 1); [lia|]. done. }
  assert (normalize_axis 3 (S (S (S (S m)))) = Ok 3%nat) as ->.
  { unfold normalize_axis.
    destruct (Z.ltb_spec 3 (- Z.of_nat (S (S (S (S m)))))); [lia|].
    destruct (Z.leb_spec (Z.of_nat (S (S (S (S m))))) 3); [lia|]. done. }
  cbn [mbind result_bind seq]. cbn [insert list_insert].
  unfold transpose. rewrite E.
  cbn [length]. rewrite length_seq. fold m. rewrite Nat.eqb_refl. cbn [negb].
  assert (forallb (λ p, (p <? S (S (S (S m))))%nat)
            (0 :: 3 :: 2 :: 1 :: seq 4 m)%nat = true) as ->.
  { apply forallb_forall. intros p Hp. apply Nat.ltb_lt.
    cbn in Hp. rewrite in_seq in Hp. lia. }
  cbn [negb].
  rewrite bool_decide_eq_true_2.
  2:{ repeat (apply NoDup_cons; split);
        rewrite ?elem_of_cons, ?elem_of_seq; [lia..|apply NoDup_seq]. }
  cbn [negb]. do 2 f_equal.
  transitivity
    (a0 :: a3 :: a2 :: a1
     :: omap (λ p, (a0 :: a1 :: a2 :: a3 :: rest) !! p) (seq 4 m));
    [reflexivity|].
  do 4 f_equal. exact (omap_lookup_seq [a0; a1; a2; a3] rest).
Qed.

Lemma chem_to_phys_few_axes {A} (t : ndarray A) :
  (ndim t < 4)%nat → chem_to_phys t = Raise AxisError.
Proof.
  unfold ndim, chem_to_phys, swapaxes.
  destruct (axes t) as [|a0 [|a1 [|a2 [|a3 rest]]]]; cbn [length]; intros H;
    [reflexivity..|lia].
Qed.

Lemma index_axes_swapped (a0 a1 a2 a3 : axis) rest i j k l more off :
  index_axes (a0 :: a3 :: a2 :: a1 :: rest) (i :: j :: k :: l :: more) off
  = index_axes (a0 :: a1 :: a2 :: a3 :: rest) (i :: l :: k :: j :: more) off.
Proof.
  cbn [index_axes].
  destruct ((i <? - dim a0) || (dim a0 <=? i)); [reflexivity|].
  destruct ((j <? - dim a3) || (dim a3 <=? j)),
    ((l <? - dim a1) || (dim a1 <=? l)),
    ((k <? - dim a2) || (dim a2 <=? k)); try reflexivity.
  f_equal. lia.
Qed.

(** X1. Line 126 on any array: the exchange of axes 1 and 3 goes through
    exactly when the array has at least four axes.  Then the result is a
    view on the same buffer, from the same position, with as many axes, the
    extents of axes 1 and 3 exchanged and every other one in place; with
    fewer axes the call raises AxisError. *)
Theorem chem_to_phys_succeeds_iff {A} (t : ndarray A) :
  ((4 ≤ ndim t)%nat →
     ∃ t' s0 s1 s2 s3 rest,
       chem_to_phys t = Ok t'
       ∧ data t' = data t ∧ offset t' = offset t ∧ ndim t' = ndim t
       ∧ shape t = s0 :: s1 :: s2 :: s3 :: rest
       ∧ shape t' = s0 :: s3 :: s2 :: s1 :: rest)
  ∧ ((ndim t < 4)%nat → chem_to_phys t = Raise AxisError).
Proof.
  split; [|apply chem_to_phys_few_axes].
  unfold ndim, shape. intros Hn.
  destruct (axes t) as [|a0 [|a1 [|a2 [|a3 rest]]]] eqn:E;
    cbn [length] in Hn; try lia.
  eexists _, (dim a0), (dim a1), (dim a2), (dim a3), (dim <$> rest).
  rewrite (chem_to_phys_axes t _ _ _ _ _ E).
  repeat split; reflexivity.
Qed.

(** X2. On an array with four axes or more, whatever comes after the fourth:
    selecting with indices [i, j, k, l, ...] in the exchanged array is
    selecting with [i, l, k, j, ...] in the original, and exchanging a second
    time gives the original array back. *)
Theorem chem_to_phys_beyond_four_axes {A} (t : ndarray A) :
  (4 ≤ ndim t)%nat →
  ∃ t', chem_to_phys t = Ok t'
        ∧ chem_to_phys t' = Ok t
        ∧ ∀ i j k l more,
            getitem t' (i :: j :: k :: l :: more)
            = getitem t (i :: l :: k :: j :: more).
Proof.
  unfold ndim. intros Hn.
  destruct t as [axs off d]. cbn [axes] in Hn.
  destruct axs as [|a0 [|a1 [|a2 [|a3 rest]]]]; cbn [length] in Hn; try lia.
  eexists. split; [by apply chem_to_phys_axes|]. cbn [offset data]. split.
  - by rewrite (chem_to_phys_axes _ a0 a3 a2 a1 rest).
  - intros i j k l more. unfold getitem. cbn [axes offset data].
    by rewrite index_axes_swapped.
Qed.


(** ** The stages, one by one, when they end normally *)

Lemma water_geometry_array :
  np_array water_coordinates
  = Ok (VArr (NDArray [Axis 3 3; Axis 3 1] 0
                [-0.0399; -0.0038; 0.0000; 1.5780; 0.8540; 0.0000;
                 2.7909; -0.5159; 0.0000]%float)).
Proof. reflexivity. Qed.

Lemma hamiltonian_builder_Ok {W} (lib : library W) s s' :
  hamiltonian_builder lib s = (Ok (), s') →
  ∃ qml pl np geometry molecule answer h q text,
    log s' = rev
      [Called "import" [VStr "pennylane"] [] (Ok qml);
       Bound "qml" qml;
       Called "import" [VStr "pennylane"] [] (Ok pl);
       Called ".numpy" [pl] [] (Ok np);
       Bound "np" np;
       Bound "symbols" (VList [VStr "H"; VStr "O"; VStr "H"]);
       Read "np" np;
       Called "array" [np; water_coordinates] [("requires_grad", VBool false)]
         (Ok geometry);
       Bound "geometry" geometry;
       Read "qml" qml;
       Read "symbols" (VList [VStr "H"; VStr "O"; VStr "H"]);
       Read "geometry" geometry;
       Called "qchem.Molecule"
         [qml; VList [VStr "H"; VStr "O"; VStr "H"]; geometry] [] (Ok molecule);
       Bound "molecule" molecule;
       Read "qml" qml; Read "molecule" molecule;
       Called "qchem.molecular_hamiltonian" [qml; molecule]
         [("method", VStr "pyscf")] (Ok answer);
       Bound "H" h; Bound "qubits" q;
       Read "H" h; Called "str" [h] [] (Ok (VStr text));
       Printed (text +:+ newline)] ++ log s
    ∧ globals s' =
        <["qubits" := q]> (<["H" := h]> (<["molecule" := molecule]>
          (<["geometry" := geometry]>
            (<["symbols" := VList [VStr "H"; VStr "O"; VStr "H"]]>
              (<["np" := np]> (<["qml" := qml]> (globals s)))))))
    ∧ np_array water_coordinates = Ok geometry
    ∧ unpack2 answer = Ok (h, q).
Proof.
  destruct s as [g w l]. cbn [globals log]. intros H.
  unfold_script_in H. run_inv H.
  repeat match goal with
         | E : as_str _ = Ok _ |- _ => apply as_str_Ok in E as ->
         | E : unpack2 _ = Ok ?p |- _ => destruct p as [h q]; cbn [fst snd] in *
         end.
  do 9 eexists. cbn [globals log].
  split; [reflexivity|]. split; [reflexivity|]. split; assumption.
Qed.

Lemma operator_importer_Ok {W} (lib : library W) s s' qml :
  globals s !! "qml" = Some qml →
  operator_importer lib s = (Ok (), s') →
  ∃ m cls q1 t1 q2 t2 h2 h3 ty text2 text3,
    log s' = rev
      [Called "import" [VStr "openfermion.ops"] [] (Ok m);
       Called ".QubitOperator" [m] [] (Ok cls);
       Bound "QubitOperator" cls;
       Read "QubitOperator" cls;
       Called "__call__" [cls; VStr "X0 X1"] [] (Ok q1);
       Called "mul" [VFloat 0.1; q1] [] (Ok t1);
       Read "QubitOperator" cls;
       Called "__call__" [cls; VStr "Z0"] [] (Ok q2);
       Called "mul" [VFloat 0.2; q2] [] (Ok t2);
       Called "add" [t1; t2] [] (Ok h2);
       Bound "H" h2;
       Read "qml" qml; Read "H" h2;
       Called "qchem.import_operator" [qml; h2] [] (Ok h3);
       Bound "H" h3;
       Read "H" h3; Called "type" [h3] [] (Ok ty);
       Called "format" [ty] [] (Ok (VStr text2));
       Printed (("Type: " +:+ newline +:+ " " +:+ text2 +:+ " " +:+ newline)
                +:+ newline);
       Read "H" h3; Called "format" [h3] [] (Ok (VStr text3));
       Printed (("Hamiltonian: " +:+ newline +:+ " " +:+ text3) +:+ newline)]
      ++ log s
    ∧ globals s' =
        <["H" := h3]> (<["H" := h2]> (<["QubitOperator" := cls]> (globals s))).
Proof.
  destruct s as [g w l]. cbn [globals log]. intros Gqml H.
  unfold_script_in H. run_inv H.
  repeat match goal with
         | E : as_str _ = Ok _ |- _ => apply as_str_Ok in E as ->
         end.
  do 11 eexists. cbn [globals log].
  split; reflexivity.
Qed.

Lemma hartree_fock_Ok {W} (lib : library W) s s' :
  hartree_fock lib s = (Ok (), s') →
  ∃ m gto ao2mo scf mol rhf energy,
    log s' = rev
      [Called "import" [VStr "pyscf"] [] (Ok m);
       Called ".gto" [m] [] (Ok gto); Bound "gto" gto;
       Called ".ao2mo" [m] [] (Ok ao2mo); Bound "ao2mo" ao2mo;
       Called ".scf" [m] [] (Ok scf); Bound "scf" scf;
       Read "gto" gto;
       Called "M" [gto] [("atom", VStr water_text)] (Ok mol);
       Bound "mol_pyscf" mol;
       Read "scf" scf; Read "mol_pyscf" mol;
       Called "RHF" [scf; mol] [] (Ok rhf);
       Bound "rhf" rhf;
       Read "rhf" rhf; Called "kernel" [rhf] [] (Ok energy);
       Bound "energy" energy] ++ log s
    ∧ globals s' =
        <["energy" := energy]> (<["rhf" := rhf]> (<["mol_pyscf" := mol]>
          (<["scf" := scf]> (<["ao2mo" := ao2mo]> (<["gto" := gto]>
            (globals s)))))).
Proof.
  destruct s as [g w l]. cbn [globals log]. intros H.
  unfold_script_in H. run_inv H.
  do 7 eexists. cbn [globals log].
  split; reflexivity.
Qed.

Lemma integral_pipeline_globals {W} (lib : library W) s s' np qml ao2mo mol rhf :
  globals s !! "np" = Some np →
  globals s !! "qml" = Some qml →
  globals s !! "ao2mo" = Some ao2mo →
  globals s !! "mol_pyscf" = Some mol →
  globals s !! "rhf" = Some rhf →
  integral_pipeline lib s = (Ok (), s') →
  ∃ one_ao two_ao one_mo two_mo two_mo' core hf h,
    globals s' =
      <["H" := h]> (<["H_fermionic" := hf]> (<["core_constant" := core]>
        (<["two_mo" := two_mo']> (<["two_mo" := two_mo]>
          (<["one_mo" := one_mo]> (<["two_ao" := two_ao]>
            (<["one_ao" := one_ao]> (globals s)))))))).
Proof.
  destruct s as [g w l]. cbn [globals log].
  intros Gnp Gqml Gao Gmol Grhf H.
  unfold_script_in H. run_inv H.
  do 8 eexists. reflexivity.
Qed.

Lemma state_importer_Ok {W} (lib : library W) s s' qml :
  globals s !! "qml" = Some qml →
  state_importer lib s = (Ok (), s') →
  ∃ m gto scf cc mol hf myhf solver mycc st text,
    log s' = rev
      [Called "import" [VStr "pyscf"] [] (Ok m);
       Called ".gto" [m] [] (Ok gto); Bound "gto" gto;
       Called ".scf" [m] [] (Ok scf); Bound "scf" scf;
       Called ".cc" [m] [] (Ok cc); Bound "cc" cc;
       Read "gto" gto;
       Called "M" [gto] [("atom", hydrogen_atoms)] (Ok mol);
       Bound "mol" mol;
       Read "scf" scf; Read "mol" mol;
       Called "RHF" [scf; mol] [] (Ok hf);
       Called "run" [hf] [] (Ok myhf);
       Bound "myhf" myhf;
       Read "cc" cc; Read "myhf" myhf;
       Called "CCSD" [cc; myhf] [] (Ok solver);
       Called "run" [solver] [] (Ok mycc);
       Bound "mycc" mycc;
       Read "qml" qml; Read "mycc" mycc;
       Called "qchem.import_state" [qml; mycc] [] (Ok st);
       Bound "state" st;
       Read "state" st; Called "str" [st] [] (Ok (VStr text));
       Printed (text +:+ newline)] ++ log s
    ∧ globals s' =
        <["state" := st]> (<["mycc" := mycc]> (<["myhf" := myhf]>
          (<["mol" := mol]> (<["cc" := cc]> (<["scf" := scf]>
            (<["gto" := gto]> (globals s))))))).
Proof.
  destruct s as [g w l]. cbn [globals log]. intros Gqml H.
  unfold_script_in H. run_inv H.
  repeat match goal with
         | E : as_str _ = Ok _ |- _ => apply as_str_Ok in E as ->
         end.
  do 11 eexists. cbn [globals log].
  split; reflexivity.
Qed.

Lemma operator_converter_Ok {W} (lib : library W) s s' qml :
  globals s !! "qml" = Some qml →
  operator_converter lib s = (Ok (), s') →
  ∃ m cls f1 t1 f2 op pl text1 back text2,
    log s' = rev
      [Called "import" [VStr "openfermion"] [] (Ok m);
       Called ".FermionOperator" [m] [] (Ok cls);
       Bound "FermionOperator" cls;
       Read "FermionOperator" cls;
       Called "__call__" [cls; VStr "0^ 2"] [] (Ok f1);
       Called "mul" [VFloat 0.5; f1] [] (Ok t1);
       Read "FermionOperator" cls;
       Called "__call__" [cls; VStr "0 2^"] [] (Ok f2);
       Called "add" [t1; f2] [] (Ok op);
       Bound "openfermion_op" op;
       Read "qml" qml; Read "openfermion_op" op;
       Called "from_openfermion" [qml; op] [] (Ok pl);
       Bound "pennylane_op" pl;
       Read "pennylane_op" pl; Called "str" [pl] [] (Ok (VStr text1));
       Printed (text1 +:+ newline);
       Read "qml" qml; Read "pennylane_op" pl;
       Called "to_openfermion" [qml; pl] [] (Ok back);
       Bound "openfermion_op" back;
       Read "openfermion_op" back; Called "str" [back] [] (Ok (VStr text2));
       Printed (text2 +:+ newline)] ++ log s
    ∧ globals s' =
        <["openfermion_op" := back]> (<["pennylane_op" := pl]>
          (<["openfermion_op" := op]> (<["FermionOperator" := cls]>
            (globals s)))).
Proof.
  destruct s as [g w l]. cbn [globals log]. intros Gqml H.
  unfold_script_in H. run_inv H.
  repeat match goal with
         | E : as_str _ = Ok _ |- _ => apply as_str_Ok in E as ->
         end.
  do 10 eexists. cbn [globals log].
  split; reflexivity.
Qed.

(** ** The stages, one by one, when they stop *)

Ltac stopped_leaf :=
  try discriminate;
  unfold stopped_by; cbn [log];
  do 5 eexists; split; [reflexivity|];
  first
    [ left; reflexivity
    | right; left; split; [reflexivity|]; eexists; split; [reflexivity|];
      eassumption
    | right; right; split; [first [left; reflexivity | right; reflexivity]|];
      eexists; split; [reflexivity | eassumption] ].

Lemma hamiltonian_builder_stops {W} (lib : library W) s e s' :
  hamiltonian_builder lib s = (Raise e, s') → stopped_by e s'.
Proof.
  destruct s as [g w l]. intros H.
  unfold_script_in H. run_all H stopped_leaf.
Qed.

Lemma operator_importer_stops {W} (lib : library W) s e s' qml :
  globals s !! "qml" = Some qml →
  operator_importer lib s = (Raise e, s') → stopped_by e s'.
Proof.
  destruct s as [g w l]. cbn [globals]. intros Gqml H.
  unfold_script_in H. run_all H stopped_leaf.
Qed.

Lemma hartree_fock_stops {W} (lib : library W) s e s' :
  hartree_fock lib s = (Raise e, s') → stopped_by e s'.
Proof.
  destruct s as [g w l]. intros H.
  unfold_script_in H. run_all H stopped_leaf.
Qed.

Lemma integral_pipeline_stops {W} (lib : library W) s e s' np qml ao2mo mol rhf :
  globals s !! "np" = Some np →
  globals s !! "qml" = Some qml →
  globals s !! "ao2mo" = Some ao2mo →
  globals s !! "mol_pyscf" = Some mol →
  globals s !! "rhf" = Some rhf →
  integral_pipeline lib s = (Raise e, s') → stopped_by e s'.
Proof.
  destruct s as [g w l]. cbn [globals].
  intros Gnp Gqml Gao Gmol Grhf H.
  unfold_script_in H. run_all H stopped_leaf.
Qed.

Lemma state_importer_stops {W} (lib : library W) s e s' qml :
  globals s !! "qml" = Some qml →
  state_importer lib s = (Raise e, s') → stopped_by e s'.
Proof.
  destruct s as [g w l]. cbn [globals]. intros Gqml H.
  unfold_script_in H. run_all H stopped_leaf.
Qed.

Lemma operator_converter_stops {W} (lib : library W) s e s' qml :
  globals s !! "qml" = Some qml →
  operator_converter lib s = (Raise e, s') → stopped_by e s'.
Proof.
  destruct s as [g w l]. cbn [globals]. intros Gqml H.
  unfold_script_in H. run_all H stopped_leaf.
Qed.

(** ** The whole script *)

Ltac bound_in G :=
  rewrite G;
  repeat first
    [ rewrite lookup_insert_eq
    | rewrite lookup_insert_ne by (intros [=]) ];
  first [reflexivity | eassumption].

(** A normal run is a normal run of each stage, and the names a stage needs
    are bound when it starts. *)
Lemma script_Ok {W} (lib : library W) (w : W) s' :
  run lib w = (Ok (), s') →
  ∃ s1 s2 s3 s4 s5 qml np ao2mo mol rhf,
    hamiltonian_builder lib (initial w) = (Ok (), s1)
    ∧ operator_importer lib s1 = (Ok (), s2)
    ∧ hartree_fock lib s2 = (Ok (), s3)
    ∧ integral_pipeline lib s3 = (Ok (), s4)
    ∧ state_importer lib s4 = (Ok (), s5)
    ∧ operator_converter lib s5 = (Ok (), s')
    ∧ globals s1 !! "qml" = Some qml
    ∧ (globals s3 !! "np" = Some np ∧ globals s3 !! "qml" = Some qml
       ∧ globals s3 !! "ao2mo" = Some ao2mo
       ∧ globals s3 !! "mol_pyscf" = Some mol ∧ globals s3 !! "rhf" = Some rhf)
    ∧ globals s4 !! "qml" = Some qml
    ∧ globals s5 !! "qml" = Some qml.
Proof.
  unfold run, script. intros H.
  apply bind_Ok in H as ([] & s1 & H1 & H).
  apply bind_Ok in H as ([] & s2 & H2 & H).
  apply bind_Ok in H as ([] & s3 & H3 & H).
  apply bind_Ok in H as ([] & s4 & H4 & H).
  apply bind_Ok in H as ([] & s5 & H5 & H6).
  destruct (hamiltonian_builder_Ok lib _ _ H1)
    as (qml & pl & np & geometry & molecule & answer & h & q & text
        & _ & G1 & _ & _).
  assert (globals s1 !! "qml" = Some qml) as Q1 by bound_in G1.
  assert (globals s1 !! "np" = Some np) as N1 by bound_in G1.
  destruct (operator_importer_Ok lib _ _ qml Q1 H2)
    as (m & cls & q1 & t1 & q2 & t2 & h2 & h3 & ty & text2 & text3 & _ & G2).
  assert (globals s2 !! "qml" = Some qml) as Q2 by bound_in G2.
  assert (globals s2 !! "np" = Some np) as N2 by bound_in G2.
  destruct (hartree_fock_Ok lib _ _ H3)
    as (m' & gto & ao2mo & scf & mol & rhf & energy & _ & G3).
  assert (globals s3 !! "qml" = Some qml) as Q3 by bound_in G3.
  assert (globals s3 !! "np" = Some np) as N3 by bound_in G3.
  assert (globals s3 !! "ao2mo" = Some ao2mo) as A3 by bound_in G3.
  assert (globals s3 !! "mol_pyscf" = Some mol) as M3 by bound_in G3.
  assert (globals s3 !! "rhf" = Some rhf) as R3 by bound_in G3.
  destruct (integral_pipeline_globals lib _ _ _ _ _ _ _ N3 Q3 A3 M3 R3 H4)
    as (one_ao & two_ao & one_mo & two_mo & two_mo' & core & hf & h4 & G4).
  assert (globals s4 !! "qml" = Some qml) as Q4 by bound_in G4.
  destruct (state_importer_Ok lib _ _ qml Q4 H5)
    as (m5 & gto5 & scf5 & cc & mol5 & hf5 & myhf & solver & mycc & st & text5
        & _ & G5).
  assert (globals s5 !! "qml" = Some qml) as Q5 by bound_in G5.
  exists s1, s2, s3, s4, s5, qml, np, ao2mo, mol, rhf.
  repeat split; assumption.
Qed.

(** X11. Why a run stops.  When a run ends with an exception, its last
    event is a request to a library or to numpy, and the exception is either
    the answer to that request, or comes from the answer not having the
    shape the script needs: an answer of the Hamiltonian builder that does
    not unpack into two values, or an answer to [str] or [format] that is
    not a string.  In particular the script never reads a name it has not
    bound. *)
Theorem why_a_run_stops {W} (lib : library W) (w : W) e s' :
  run lib w = (Raise e, s') →
  ∃ f args kwargs r older,
    log s' = Called f args kwargs r :: older
    ∧ (r = Raise e
       ∨ (f = "qchem.molecular_hamiltonian"
          ∧ ∃ v, r = Ok v ∧ unpack2 v = Raise e)
       ∨ ((f = "str" ∨ f = "format") ∧ ∃ v, r = Ok v ∧ as_str v = Raise e)).
Proof.
  intros H. change (stopped_by e s').
  unfold run, script in H.
  apply bind_any in H as [([] & s1 & H1 & H) | (? & H & [= <-])];
    [|exact (hamiltonian_builder_stops lib _ _ _ H)].
  destruct (hamiltonian_builder_Ok lib _ _ H1)
    as (qml & pl & np & geometry & molecule & answer & h & q & text
        & _ & G1 & _ & _).
  assert (globals s1 !! "qml" = Some qml) as Q1 by bound_in G1.
  assert (globals s1 !! "np" = Some np) as N1 by bound_in G1.
  apply bind_any in H as [([] & s2 & H2 & H) | (? & H & [= <-])];
    [|exact (operator_importer_stops lib _ _ _ _ Q1 H)].
  destruct (operator_importer_Ok lib _ _ qml Q1 H2)
    as (m & cls & q1 & t1 & q2 & t2 & h2 & h3 & ty & text2 & text3 & _ & G2).
  assert (globals s2 !! "qml" = Some qml) as Q2 by bound_in G2.
  assert (globals s2 !! "np" = Some np) as N2 by bound_in G2.
  apply bind_any in H as [([] & s3 & H3 & H) | (? & H & [= <-])];
    [|exact (hartree_fock_stops lib _ _ _ H)].
  destruct (hartree_fock_Ok lib _ _ H3)
    as (m' & gto & ao2mo & scf & mol & rhf & energy & _ & G3).
  assert (globals s3 !! "qml" = Some qml) as Q3 by bound_in G3.
  assert (globals s3 !! "np" = Some np) as N3 by bound_in G3.
  assert (globals s3 !! "ao2mo" = Some ao2mo) as A3 by bound_in G3.
  assert (globals s3 !! "mol_pyscf" = Some mol) as M3 by bound_in G3.
  assert (globals s3 !! "rhf" = Some rhf) as R3 by bound_in G3.
  apply bind_any in H as [([] & s4 & H4 & H) | (? & H & [= <-])];
    [|exact (integral_pipeline_stops lib _ _ _ _ _ _ _ _ N3 Q3 A3 M3 R3 H)].
  destruct (integral_pipeline_globals lib _ _ _ _ _ _ _ N3 Q3 A3 M3 R3 H4)
    as (one_ao & two_ao & one_mo & two_mo & two_mo' & core & hf & h4 & G4).
  assert (globals s4 !! "qml" = Some qml) as Q4 by bound_in G4.
  apply bind_any in H as [([] & s5 & H5 & H) | (? & H & [= <-])];
    [|exact (state_importer_stops lib _ _ _ _ Q4 H)].
  destruct (state_importer_Ok lib _ _ qml Q4 H5)
    as (m5 & gto5 & scf5 & cc & mol5 & hf5 & myhf & solver & mycc & st & text5
        & _ & G5).
  assert (globals s5 !! "qml" = Some qml) as Q5 by bound_in G5.
  exact (operator_converter_stops lib _ _ _ _ Q5 H).
Qed.

(** ** What each stage asks for, needs and leaves *)

(** X3. The Hamiltonian builder (lines 50 to 60) needs nothing from the
    state it starts in.  When it ends normally: the water coordinates were
    made a 3 by 3 row-major array, the molecule was requested from the three
    symbols and that array, the Hamiltonian from that molecule with the
    method "pyscf"; the answer unpacked into what [H] and [qubits] are bound
    to; and the one text printed is the text of [H].  Seven names are bound,
    the others are left as they were. *)
Theorem hamiltonian_builder_steps {W} (lib : library W) s s' :
  hamiltonian_builder lib s = (Ok (), s') →
  ∃ qml pl np molecule answer h q text new,
    let symbols := VList [VStr "H"; VStr "O"; VStr "H"] in
    let geometry :=
      VArr (NDArray [Axis 3 3; Axis 3 1] 0
              [-0.0399; -0.0038; 0.0000; 1.5780; 0.8540; 0.0000;
               2.7909; -0.5159; 0.0000]%float) in
    history s' = history s ++ new
    ∧ calls new =
        [Called "import" [VStr "pennylane"] [] (Ok qml);
         Called "import" [VStr "pennylane"] [] (Ok pl);
         Called ".numpy" [pl] [] (Ok np);
         Called "array" [np; water_coordinates]
           [("requires_grad", VBool false)] (Ok geometry);
         Called "qchem.Molecule" [qml; symbols; geometry] [] (Ok molecule);
         Called "qchem.molecular_hamiltonian" [qml; molecule]
           [("method", VStr "pyscf")] (Ok answer);
         Called "str" [h] [] (Ok (VStr text))]
    ∧ unpack2 answer = Ok (h, q)
    ∧ printed new = [text +:+ newline]
    ∧ globals s' =
        <["qubits" := q]> (<["H" := h]> (<["molecule" := molecule]>
          (<["geometry" := geometry]> (<["symbols" := symbols]>
            (<["np" := np]> (<["qml" := qml]> (globals s))))))).
Proof.
  intros H.
  destruct (hamiltonian_builder_Ok lib _ _ H)
    as (qml & pl & np & geometry & molecule & answer & h & q & text
        & L & G & Hgeo & Hun).
  rewrite water_geometry_array in Hgeo. injection Hgeo as <-.
  exists qml, pl, np, molecule, answer, h, q, text. eexists. cbn zeta.
  split; [exact (history_since _ _ _ L)|].
  repeat split; assumption.
Qed.

Lemma unpack2_Raise v e :
  unpack2 v = Raise e →
  (e = TypeError ∧ iterate v = Raise TypeError)
  ∨ (e = ValueError ∧ ∃ l, iterate v = Ok l ∧ length l ≠ 2%nat).
Proof.
  unfold unpack2. destruct (iterate v) as [l|e0] eqn:E; cbn.
  - destruct l as [|a [|b [|c l]]]; intros [= <-]; right;
      (split; [done|]); eexists; (split; [done|]); cbn; lia.
  - intros [= <-]. left.
    destruct v; cbn in E; try discriminate; try (by injection E as <-).
    unfold entries in E. destruct (axes t); [by injection E as <-|discriminate].
Qed.

(** X4. Unpacking the builder's answer (line 59) is all or nothing.  When
    the builder stage stops right after the Hamiltonian was answered, with
    anything but an opaque library object, the answer did not unpack into
    two values: either it cannot be iterated over ([None], a boolean, a
    number, an array without axes: TypeError), or iterating over it (a
    tuple, a list, a string, an array) yields a number of values other than
    two (ValueError).  Neither [H] nor [qubits] has been touched, and no
    [print] statement has run. *)
Theorem builder_answer_must_be_a_pair {W} (lib : library W) s e s'
    args kwargs v older :
  hamiltonian_builder lib s = (Raise e, s') →
  log s' = Called "qchem.molecular_hamiltonian" args kwargs (Ok v) :: older →
  (∀ id, v ≠ VObj id) →
  unpack2 v = Raise e
  ∧ ((e = TypeError ∧ iterate v = Raise TypeError)
     ∨ (e = ValueError ∧ ∃ l, iterate v = Ok l ∧ length l ≠ 2%nat))
  ∧ globals s' !! "H" = globals s !! "H"
  ∧ globals s' !! "qubits" = globals s !! "qubits"
  ∧ ∃ new, log s' = new ++ log s ∧ printed new = [].
Proof.
  destruct s as [g w l]. cbn [globals log]. intros H Hlog _.
  unfold_script_in H.
  run_all H ltac:(cbn [log globals] in *; simplify_eq).
  split; [assumption|]. split.
  { match goal with E : unpack2 ?v = Raise _ |- _ => apply unpack2_Raise in E end.
    assumption. }
  split; [by rewrite !lookup_insert_ne by (intros [=])|].
  split; [by rewrite !lookup_insert_ne by (intros [=])|].
  new_events. split; reflexivity.
Qed.


Lemma np_swapaxes_array_Raise t e :
  np_swapaxes (VArr t) (VInt 1) (VInt 3) = Raise e →
  e = AxisError ∧ (ndim t < 4)%nat.
Proof.
  cbn. intros H.
  destruct (Nat.lt_ge_cases (ndim t) 4) as [Hlt|Hge].
  - fold (chem_to_phys t) in H. rewrite (chem_to_phys_few_axes t Hlt) in H.
    injection H as <-. auto.
  - unfold ndim in Hge.
    destruct (axes t) as [|a0 [|a1 [|a2 [|a3 rest]]]] eqn:E;
      cbn [length] in Hge; try lia.
    fold (chem_to_phys t) in H. rewrite (chem_to_phys_axes t _ _ _ _ _ E) in H.
    discriminate H.
Qed.

(** X7. When the integral pipeline stops at the exchange of axes (line 126)
    and what [ao2mo.incore.full] answered is an array, that array has fewer
    than four axes and the exception is AxisError.  [two_mo] still holds the
    array, in chemists' notation; the nuclear energy was not asked for, and
    [core_constant], [H_fermionic] and [H] are what they were before the
    stage. *)
Theorem pipeline_stops_at_the_exchange {W} (lib : library W) s e s'
    np qml ao2mo mol rhf np' t exchanged kwargs r older :
  globals s !! "np" = Some np →
  globals s !! "qml" = Some qml →
  globals s !! "ao2mo" = Some ao2mo →
  globals s !! "mol_pyscf" = Some mol →
  globals s !! "rhf" = Some rhf →
  integral_pipeline lib s = (Raise e, s') →
  log s' = Called "swapaxes" (np' :: VArr t :: exchanged) kwargs r :: older →
  ∃ two_ao c rest,
    np' = np ∧ exchanged = [VInt 1; VInt 3] ∧ kwargs = [] ∧ r = Raise e
    ∧ e = AxisError ∧ (ndim t < 4)%nat
    ∧ older = Read "two_mo" (VArr t) :: Read "np" np :: Bound "two_mo" (VArr t)
              :: Called "incore.full" [ao2mo; two_ao; c] [] (Ok (VArr t)) :: rest
    ∧ globals s' !! "two_mo" = Some (VArr t)
    ∧ globals s' !! "core_constant" = globals s !! "core_constant"
    ∧ globals s' !! "H_fermionic" = globals s !! "H_fermionic"
    ∧ globals s' !! "H" = globals s !! "H"
    ∧ ∃ new, log s' = new ++ log s
             ∧ call_names (rev new) = take 10 integral_pipeline_calls.
Proof.
  destruct s as [g w l]. cbn [globals log].
  intros Gnp Gqml Gao Gmol Grhf H Hlog.
  unfold_script_in H.
  run_all H ltac:(cbn [log globals] in *; simplify_eq).
  match goal with
  | E : np_swapaxes _ _ _ = Raise _ |- _ =>
      apply np_swapaxes_array_Raise in E as [-> Hfew]
  end.
  do 3 eexists. split; [reflexivity|]. split; [reflexivity|].
  split; [reflexivity|]. split; [reflexivity|]. split; [reflexivity|].
  split; [assumption|]. split; [reflexivity|].
  split; [by rewrite lookup_insert_eq|].
  split; [by rewrite !lookup_insert_ne by (intros [=])|].
  split; [by rewrite !lookup_insert_ne by (intros [=])|].
  split; [by rewrite !lookup_insert_ne by (intros [=])|].
  new_events. split; reflexivity.
Qed.

(** X5. The operator importer (lines 73 to 79) needs only [qml] from what
    came before.  When it ends normally: the OpenFermion operator was built
    as 0.1 times the 'X0 X1' operator plus 0.2 times the 'Z0' operator, with
    the class freshly imported; it was bound to [H] and then replaced by
    what PennyLane imported from it; and the two texts printed are the type
    and the text of the imported observable. *)
Theorem operator_importer_steps {W} (lib : library W) s s' qml :
  globals s !! "qml" = Some qml →
  operator_importer lib s = (Ok (), s') →
  ∃ m cls q1 t1 q2 t2 h2 h3 ty text2 text3 new,
    history s' = history s ++ new
    ∧ calls new =
        [Called "import" [VStr "openfermion.ops"] [] (Ok m);
         Called ".QubitOperator" [m] [] (Ok cls);
         Called "__call__" [cls; VStr "X0 X1"] [] (Ok q1);
         Called "mul" [VFloat 0.1; q1] [] (Ok t1);
         Called "__call__" [cls; VStr "Z0"] [] (Ok q2);
         Called "mul" [VFloat 0.2; q2] [] (Ok t2);
         Called "add" [t1; t2] [] (Ok h2);
         Called "qchem.import_operator" [qml; h2] [] (Ok h3);
         Called "type" [h3] [] (Ok ty);
         Called "format" [ty] [] (Ok (VStr text2));
         Called "format" [h3] [] (Ok (VStr text3))]
    ∧ bindings "H" new = [h2; h3]
    ∧ printed new =
        [("Type: " +:+ newline +:+ " " +:+ text2 +:+ " " +:+ newline)
         +:+ newline;
         ("Hamiltonian: " +:+ newline +:+ " " +:+ text3) +:+ newline]
    ∧ globals s' = <["H" := h3]> (<["QubitOperator" := cls]> (globals s)).
Proof.
  intros Gqml H.
  destruct (operator_importer_Ok lib _ _ qml Gqml H)
    as (m & cls & q1 & t1 & q2 & t2 & h2 & h3 & ty & text2 & text3 & L & G).
  exists m, cls, q1, t1, q2, t2, h2, h3, ty, text2, text3. eexists.
  split; [exact (history_since _ _ _ L)|].
  split; [reflexivity|]. split; [reflexivity|]. split; [reflexivity|].
  by rewrite G, insert_insert_eq.
Qed.

(** X6. The Hartree-Fock stage (lines 99 to 105) needs nothing from what
    came before.  When it ends normally: the molecule was requested from
    the freshly imported [gto] with the water geometry as text, the solver
    from the freshly imported [scf] and that molecule, and [energy] is the
    answer of the solver's [kernel].  Six names are bound, the others are
    left as they were. *)
Theorem hartree_fock_steps {W} (lib : library W) s s' :
  hartree_fock lib s = (Ok (), s') →
  ∃ m gto ao2mo scf mol rhf energy new,
    history s' = history s ++ new
    ∧ calls new =
        [Called "import" [VStr "pyscf"] [] (Ok m);
         Called ".gto" [m] [] (Ok gto);
         Called ".ao2mo" [m] [] (Ok ao2mo);
         Called ".scf" [m] [] (Ok scf);
         Called "M" [gto] [("atom", VStr water_text)] (Ok mol);
         Called "RHF" [scf; mol] [] (Ok rhf);
         Called "kernel" [rhf] [] (Ok energy)]
    ∧ globals s' =
        <["energy" := energy]> (<["rhf" := rhf]> (<["mol_pyscf" := mol]>
          (<["scf" := scf]> (<["ao2mo" := ao2mo]> (<["gto" := gto]>
            (globals s)))))).
Proof.
  intros H.
  destruct (hartree_fock_Ok lib _ _ H)
    as (m & gto & ao2mo & scf & mol & rhf & energy & L & G).
  exists m, gto, ao2mo, scf, mol, rhf, energy. eexists.
  split; [exact (history_since _ _ _ L)|].
  repeat split; [reflexivity..|assumption].
Qed.

(** X8. The state importer (lines 167 to 178) needs only [qml] from what
    came before: [gto] and [scf] are imported again and it is the new ones
    that are used.  When it ends normally: the Hartree-Fock solver was made
    from the hydrogen molecule and run, the coupled-cluster solver was made
    from the answer of that run and run, the state was imported from the
    answer of the second run, and the stage ends by printing the text of
    the state. *)
Theorem state_importer_steps {W} (lib : library W) s s' qml :
  globals s !! "qml" = Some qml →
  state_importer lib s = (Ok (), s') →
  ∃ m gto scf cc mol hf myhf solver mycc st text new,
    history s' = history s ++ new
    ∧ calls new =
        [Called "import" [VStr "pyscf"] [] (Ok m);
         Called ".gto" [m] [] (Ok gto);
         Called ".scf" [m] [] (Ok scf);
         Called ".cc" [m] [] (Ok cc);
         Called "M" [gto] [("atom", hydrogen_atoms)] (Ok mol);
         Called "RHF" [scf; mol] [] (Ok hf);
         Called "run" [hf] [] (Ok myhf);
         Called "CCSD" [cc; myhf] [] (Ok solver);
         Called "run" [solver] [] (Ok mycc);
         Called "qchem.import_state" [qml; mycc] [] (Ok st);
         Called "str" [st] [] (Ok (VStr text))]
    ∧ (∃ earlier,
         new = earlier ++ [Read "state" st; Called "str" [st] [] (Ok (VStr text));
                           Printed (text +:+ newline)])
    ∧ globals s' =
        <["state" := st]> (<["mycc" := mycc]> (<["myhf" := myhf]>
          (<["mol" := mol]> (<["cc" := cc]> (<["scf" := scf]>
            (<["gto" := gto]> (globals s))))))).
Proof.
  intros Gqml H.
  destruct (state_importer_Ok lib _ _ qml Gqml H)
    as (m & gto & scf & cc & mol & hf & myhf & solver & mycc & st & text
        & L & G).
  exists m, gto, scf, cc, mol, hf, myhf, solver, mycc, st, text. eexists.
  split; [exact (history_since _ _ _ L)|].
  split; [reflexivity|]. split; [|assumption].
  eexists (_ :: _ :: _ :: _ :: _ :: _ :: _ :: _ :: _ :: _ :: _ :: _ :: _ :: _
           :: _ :: _ :: _ :: _ :: _ :: _ :: _ :: _ :: _ :: _ :: []).
  reflexivity.
Qed.

(** X9. The operator converter (lines 192 to 202) needs only [qml] from what
    came before.  When it ends normally: the OpenFermion operator was built
    as 0.5 times the '0^ 2' operator plus the '0 2^' operator; PennyLane's
    [from_openfermion] was given that operator and its answer printed;
    [to_openfermion] was given that answer, and its own answer, printed
    last, replaced the operator first bound to [openfermion_op]. *)
Theorem operator_converter_steps {W} (lib : library W) s s' qml :
  globals s !! "qml" = Some qml →
  operator_converter lib s = (Ok (), s') →
  ∃ m cls f1 t1 f2 op pl text1 back text2 new,
    history s' = history s ++ new
    ∧ calls new =
        [Called "import" [VStr "openfermion"] [] (Ok m);
         Called ".FermionOperator" [m] [] (Ok cls);
         Called "__call__" [cls; VStr "0^ 2"] [] (Ok f1);
         Called "mul" [VFloat 0.5; f1] [] (Ok t1);
         Called "__call__" [cls; VStr "0 2^"] [] (Ok f2);
         Called "add" [t1; f2] [] (Ok op);
         Called "from_openfermion" [qml; op] [] (Ok pl);
         Called "str" [pl] [] (Ok (VStr text1));
         Called "to_openfermion" [qml; pl] [] (Ok back);
         Called "str" [back] [] (Ok (VStr text2))]
    ∧ bindings "openfermion_op" new = [op; back]
    ∧ printed new = [text1 +:+ newline; text2 +:+ newline]
    ∧ globals s' =
        <["openfermion_op" := back]> (<["pennylane_op" := pl]>
          (<["FermionOperator" := cls]> (globals s))).
Proof.
  intros Gqml H.
  destruct (operator_converter_Ok lib _ _ qml Gqml H)
    as (m & cls & f1 & t1 & f2 & op & pl & text1 & back & text2 & L & G).
  exists m, cls, f1, t1, f2, op, pl, text1, back, text2. eexists.
  split; [exact (history_since _ _ _ L)|].
  split; [reflexivity|]. split; [reflexivity|]. split; [reflexivity|].
  rewrite G. apply map_eq. intros x.
  destruct (decide (x = "openfermion_op")) as [->|Hx].
  - by rewrite !lookup_insert_eq.
  - rewrite !(lookup_insert_ne _ "openfermion_op") by done.
    destruct (decide (x = "pennylane_op")) as [->|Hy].
    + by rewrite !lookup_insert_eq.
    + rewrite !(lookup_insert_ne _ "pennylane_op") by done.
      by rewrite (lookup_insert_ne _ "openfermion_op") by done.
Qed.

(** ** Names that are bound and never read *)

Section Every.
Context {W : Type} (lib : library W) (P : event → bool).

Lemma every_ret {A} (a : A) : every_event P (mret a : M W A).
Proof. intros s. by exists []. Qed.

Lemma every_lift {A} (r : result A) : every_event P (lift r : M W A).
Proof. intros s. by exists []. Qed.

Lemma every_load x :
  (∀ v, P (Read x v) = true) → every_event P (load x : M W value).
Proof.
  intros HP s. unfold load.
  destruct (globals s !! x) as [v|]; [exists [Read x v] | exists []]; cbn;
    [by rewrite HP|done].
Qed.

Lemma every_store x v :
  P (Bound x v) = true → every_event P (store x v : M W unit).
Proof. intros HP s. exists [Bound x v]. cbn. by rewrite HP. Qed.

Lemma every_write text :
  P (Printed text) = true → every_event P (write text : M W unit).
Proof. intros HP s. exists [Printed text]. cbn. by rewrite HP. Qed.

Lemma every_call f args kwargs :
  (∀ r, P (Called f args kwargs r) = true) →
  every_event P (call lib f args kwargs).
Proof.
  intros HP s. unfold call. destruct (lib f args kwargs (world s)) as [r w].
  exists [Called f args kwargs r]. cbn. by rewrite HP.
Qed.

Lemma every_computed f args kwargs r :
  P (Called f args kwargs r) = true →
  every_event P (computed f args kwargs r : M W value).
Proof. intros HP s. exists [Called f args kwargs r]. cbn. by rewrite HP. Qed.

Lemma every_bind {A B} (m : M W A) (f : A → M W B) :
  every_event P m → (∀ a, every_event P (f a)) → every_event P (m ≫= f).
Proof.
  intros Hm Hf s. destruct (Hm s) as (new1 & Hlog1 & H1).
  unfold mbind, M_bind. destruct (m s) as [[a|x] s1]; cbn in *.
  - destruct (Hf a s1) as (new2 & Hlog2 & H2).
    exists (new2 ++ new1). split; [by rewrite Hlog2, Hlog1, app_assoc|].
    by rewrite forallb_app, H1, H2.
  - by exists new1.
Qed.

End Every.

Ltac every_step :=
  lazymatch goal with
  | |- every_event _ (mbind _ _) =>
      apply every_bind; [every_step | intros; every_step]
  | |- every_event _ (call _ _ _ _) => apply every_call; reflexivity
  | |- every_event _ (computed _ _ _ _) => apply every_computed; reflexivity
  | |- every_event _ (load _) => apply every_load; reflexivity
  | |- every_event _ (store _ _) => apply every_store; reflexivity
  | |- every_event _ (write _) => apply every_write; reflexivity
  | |- every_event _ (lift _) => apply every_lift
  | |- every_event _ (mret _) => apply every_ret
  end.

(** X12. Two results are bound and never used: in no run, however it ends,
    is [qubits] (the qubit count of the builder) or [energy] (the answer of
    the Hartree-Fock solver) read. *)
Theorem qubits_and_energy_are_never_read {W} (lib : library W) (w : W) :
  Forall (λ e, reads "qubits" e = false ∧ reads "energy" e = false)
    (history (run lib w).2).
Proof.
  assert (every_event (λ e, negb (reads "qubits" e || reads "energy" e))
            (script lib)) as H by (unfold_script; every_step).
  destruct (H (initial w)) as (new & Hlog & Hall).
  unfold run, history. rewrite Hlog. cbn [initial log]. rewrite app_nil_r.
  apply Forall_forall. intros e He.
  apply list_elem_of_In, in_rev in He.
  rewrite forallb_forall in Hall. specialize (Hall e He).
  apply negb_true_iff, orb_false_iff in Hall. exact Hall.
Qed.

(** ** Arrays made from lists of rows *)

Lemma mapM_as_float_floats (row : list float) :
  mapM as_float (VFloat <$> row) = Some row.
Proof.
  induction row as [|x row IH]; [done|].
  cbn. rewrite IH. done.
Qed.

Lemma mapM_as_floats_rows (rows : list (list float)) :
  mapM as_floats ((λ row, VList (VFloat <$> row)) <$> rows) = Some rows.
Proof.
  induction rows as [|row rows IH]; [done|].
  cbn. rewrite mapM_as_float_floats. cbn. rewrite IH. done.
Qed.

Lemma np_array_rows (row : list float) rows :
  np_array (rows_literal (row :: rows)) = VArr <$> array2 (row :: rows).
Proof.
  unfold np_array, rows_literal.
  rewrite mapM_as_floats_rows. reflexivity.
Qed.

Lemma forallb_same_length {A} (rows : list (list A)) m :
  forallb (λ r, length r =? m)%nat rows = true ↔ Forall (λ r, length r = m) rows.
Proof.
  rewrite forallb_forall, Forall_forall. split; intros H r Hr.
  - apply Nat.eqb_eq, H. by apply list_elem_of_In.
  - apply Nat.eqb_eq, H. by apply list_elem_of_In.
Qed.

Lemma concat_lookup_rows {A} (rows : list (list A)) m i j row x :
  Forall (λ r, length r = m) rows →
  rows !! i = Some row → row !! j = Some x →
  concat rows !! (i * m + j)%nat = Some x.
Proof.
  intros Hall. revert i. induction Hall as [|r rows Hr Hall IH]; intros i Hi Hj.
  - by rewrite lookup_nil in Hi.
  - destruct i as [|i]; cbn in *.
    + injection Hi as ->. by rewrite lookup_app_l by (by apply lookup_lt_Some in Hj).
    + rewrite lookup_app_r by lia.
      replace (m + i * m + j - length r)%nat with (i * m + j)%nat by lia.
      by apply IH.
Qed.

(** X13. The array made from a list of rows of floats (as at line 54) reads
    back as the list: when all the rows have the same length, [np.array]
    answers an array whose two extents are the number of rows and their
    length, and whose entry [i, j] is the [j]-th float of the [i]-th row;
    counting either index from the end selects the same entry. *)
Theorem np_array_reads_back row rows i j r x :
  Forall (λ r, length r = length row) rows →
  (row :: rows) !! i = Some r → r !! j = Some x →
  ∃ t, np_array (rows_literal (row :: rows)) = Ok (VArr t)
       ∧ shape t = [Z.of_nat (S (length rows)); Z.of_nat (length row)]
       ∧ (item <$> getitem t [Z.of_nat i; Z.of_nat j]) = Ok (Some x)
       ∧ (item <$> getitem t [Z.of_nat i - Z.of_nat (S (length rows));
                              Z.of_nat j - Z.of_nat (length row)])
         = Ok (Some x).
Proof.
  intros Hall Hi Hj.
  assert (Forall (λ r, length r = length row) (row :: rows)) as Hall'
    by (by constructor).
  rewrite np_array_rows. unfold array2.
  rewrite (proj2 (forallb_same_length (row :: rows) (length row)) Hall').
  eexists. split; [reflexivity|]. split; [reflexivity|].
  change (length (row :: rows)) with (S (length rows)).
  pose proof (lookup_lt_Some _ _ _ Hi) as Hilt. cbn [length] in Hilt.
  pose proof (lookup_lt_Some _ _ _ Hj) as Hjlt.
  assert (length r = length row) as Hr.
  { rewrite Forall_forall in Hall'. apply Hall'. by eapply list_elem_of_lookup_2. }
  rewrite Hr in Hjlt.
  pose proof (concat_lookup_rows _ _ _ _ _ _ Hall' Hi Hj) as Hx.
  set (R := Z.of_nat (S (length rows))) in *.
  set (m := Z.of_nat (length row)) in *.
  assert (0 <= Z.of_nat i < R) as Hib by (unfold R; lia).
  assert (0 <= Z.of_nat j < m) as Hjb by (unfold m; lia).
  assert (Z.to_nat (0 + Z.of_nat i * m + Z.of_nat j * 1)
          = (i * length row + j)%nat) as Hpos by (unfold m; lia).
  unfold getitem. cbn [axes offset data index_axes dim stride].
  split.
  - destruct (Z.ltb_spec (Z.of_nat i) (- R)); [lia|].
    destruct (Z.leb_spec R (Z.of_nat i)); [lia|]. cbn [orb].
    destruct (Z.ltb_spec (Z.of_nat i) 0); [lia|].
    destruct (Z.ltb_spec (Z.of_nat j) (- m)); [lia|].
    destruct (Z.leb_spec m (Z.of_nat j)); [lia|]. cbn [orb].
    destruct (Z.ltb_spec (Z.of_nat j) 0); [lia|].
    cbn [mbind result_bind fmap result_fmap fst snd].
    unfold item. cbn [axes offset data].
    destruct (Z.ltb_spec (0 + Z.of_nat i * m + Z.of_nat j * 1) 0); [lia|].
    by rewrite Hpos, Hx.
  - destruct (Z.ltb_spec (Z.of_nat i - R) (- R)); [lia|].
    destruct (Z.leb_spec R (Z.of_nat i - R)); [lia|]. cbn [orb].
    destruct (Z.ltb_spec (Z.of_nat i - R) 0); [|lia].
    destruct (Z.ltb_spec (Z.of_nat j - m) (- m)); [lia|].
    destruct (Z.leb_spec m (Z.of_nat j - m)); [lia|]. cbn [orb].
    destruct (Z.ltb_spec (Z.of_nat j - m) 0); [|lia].
    cbn [mbind result_bind fmap result_fmap fst snd].
    unfold item. cbn [axes offset data].
    replace (0 + (Z.of_nat i - R + R) * m + (Z.of_nat j - m + m) * 1)
      with (0 + Z.of_nat i * m + Z.of_nat j * 1) by lia.
    destruct (Z.ltb_spec (0 + Z.of_nat i * m + Z.of_nat j * 1) 0); [lia|].
    by rewrite Hpos, Hx.
Qed.

(** ** These properties on the toy runs *)

Lemma toy_stage_runs :
  hamiltonian_builder toy_lib (initial 0%nat) = (Ok (), toy_built)
  ∧ operator_importer toy_lib toy_built = (Ok (), toy_imported)
  ∧ hartree_fock toy_lib toy_imported = (Ok (), toy_solved)
  ∧ state_importer toy_lib toy_assembled = (Ok (), toy_state)
  ∧ operator_converter toy_lib toy_state = (Ok (), toy_converted).
Proof. repeat apply conj; vm_compute; reflexivity. Qed.

Lemma toy_qml_bound :
  globals toy_built !! "qml" = Some (VObj 1)
  ∧ globals toy_assembled !! "qml" = Some (VObj 1)
  ∧ globals toy_state !! "qml" = Some (VObj 1).
Proof. repeat apply conj; vm_compute; reflexivity. Qed.

Lemma triple_builder_stops :
  hamiltonian_builder triple_lib (initial 0%nat) = (Raise ValueError, triple_stopped)
  ∧ log triple_stopped
    = Called "qchem.molecular_hamiltonian" [VObj 1; VObj 4]
        [("method", VStr "pyscf")] (Ok (VTuple [VObj 1; VInt 14; VNone]))
      :: tail (log triple_stopped).
Proof. apply conj; vm_compute; reflexivity. Qed.

Lemma flat_pipeline_stops :
  integral_pipeline flat_lib toy_ready = (Raise AxisError, flat_stopped)
  ∧ log flat_stopped
    = Called "swapaxes" [VObj 3; VArr toy_matrix; VInt 1; VInt 3] []
        (Raise AxisError)
      :: tail (log flat_stopped).
Proof. apply conj; vm_compute; reflexivity. Qed.

Lemma failing_run_stops :
  run failing_lib 0%nat = (Raise (LibraryError "no convergence"), failing_stopped).
Proof. vm_compute. reflexivity. Qed.

Lemma chem_to_phys_succeeds_iff_witness :
  (4 ≤ ndim toy_five)%nat ∧ (ndim toy_matrix < 4)%nat
  ∧ (∃ t', chem_to_phys toy_five = Ok t' ∧ data t' = data toy_five)
  ∧ chem_to_phys toy_matrix = Raise AxisError.
Proof.
  assert (4 ≤ ndim toy_five)%nat as H5 by (cbv; lia).
  assert (ndim toy_matrix < 4)%nat as H2 by (cbv; lia).
  split; [exact H5|]. split; [exact H2|].
  destruct (chem_to_phys_succeeds_iff toy_five) as [Hyes _].
  destruct (chem_to_phys_succeeds_iff toy_matrix) as [_ Hno].
  split; [|exact (Hno H2)].
  destruct (Hyes H5) as (t' & s0 & s1 & s2 & s3 & rest & Hok & Hdata & _).
  exists t'. split; assumption.
Defined.

Lemma chem_to_phys_beyond_four_axes_witness :
  (4 ≤ ndim toy_five)%nat
  ∧ ∃ t', chem_to_phys toy_five = Ok t' ∧ chem_to_phys t' = Ok toy_five.
Proof.
  assert (4 ≤ ndim toy_five)%nat as H5 by (cbv; lia).
  split; [exact H5|].
  destruct (chem_to_phys_beyond_four_axes toy_five H5) as (t' & H1 & H2 & _).
  exists t'. split; assumption.
Defined.

Lemma hamiltonian_builder_steps_witness :
  hamiltonian_builder toy_lib (initial 0%nat) = (Ok (), toy_built)
  ∧ ∃ new text, history toy_built = history (initial 0%nat) ++ new
                ∧ printed new = [text +:+ newline].
Proof.
  destruct toy_stage_runs as (H1 & _).
  split; [exact H1|].
  destruct (hamiltonian_builder_steps toy_lib _ _ H1)
    as (qml & pl & np & molecule & answer & h & q & text & new
        & Hh & _ & _ & Hp & _).
  exists new, text. split; assumption.
Defined.

Lemma builder_answer_must_be_a_pair_witness :
  (hamiltonian_builder triple_lib (initial 0%nat)
   = (Raise ValueError, triple_stopped)
   ∧ log triple_stopped
     = Called "qchem.molecular_hamiltonian" [VObj 1; VObj 4]
         [("method", VStr "pyscf")] (Ok (VTuple [VObj 1; VInt 14; VNone]))
       :: tail (log triple_stopped)
   ∧ ∀ id, VTuple [VObj 1; VInt 14; VNone] ≠ VObj id)
  ∧ globals triple_stopped !! "H" = globals (initial 0%nat) !! "H"
  ∧ globals triple_stopped !! "qubits" = globals (initial 0%nat) !! "qubits".
Proof.
  destruct triple_builder_stops as [Hrun Hlog].
  assert (∀ id, VTuple [VObj 1; VInt 14; VNone] ≠ VObj id) as Hobj
    by (intros id; discriminate).
  split; [split; [exact Hrun | split; [exact Hlog | exact Hobj]]|].
  destruct (builder_answer_must_be_a_pair triple_lib _ _ _ _ _ _ _ Hrun Hlog Hobj)
    as (_ & _ & GH & Gq & _).
  split; assumption.
Defined.

Lemma operator_importer_steps_witness :
  (globals toy_built !! "qml" = Some (VObj 1)
   ∧ operator_importer toy_lib toy_built = (Ok (), toy_imported))
  ∧ ∃ h2 h3 new, history toy_imported = history toy_built ++ new
                 ∧ bindings "H" new = [h2; h3].
Proof.
  destruct toy_stage_runs as (_ & H2 & _).
  destruct toy_qml_bound as (Q1 & _).
  split; [split; assumption|].
  destruct (operator_importer_steps toy_lib _ _ _ Q1 H2)
    as (m & cls & q1 & t1 & q2 & t2 & h2 & h3 & ty & text2 & text3 & new
        & Hh & _ & Hb & _).
  exists h2, h3, new. split; assumption.
Defined.

Lemma hartree_fock_steps_witness :
  hartree_fock toy_lib toy_imported = (Ok (), toy_solved)
  ∧ ∃ new energy, history toy_solved = history toy_imported ++ new
                  ∧ globals toy_solved !! "energy" = Some energy.
Proof.
  destruct toy_stage_runs as (_ & _ & H3 & _).
  split; [exact H3|].
  destruct (hartree_fock_steps toy_lib _ _ H3)
    as (m & gto & ao2mo & scf & mol & rhf & energy & new & Hh & _ & G).
  exists new, energy. split; [exact Hh|].
  rewrite G. apply lookup_insert_eq.
Defined.

Lemma pipeline_stops_at_the_exchange_witness :
  ((globals toy_ready !! "np" = Some (VObj 3)
    ∧ globals toy_ready !! "qml" = Some (VObj 1)
    ∧ globals toy_ready !! "ao2mo" = Some (VObj 20)
    ∧ globals toy_ready !! "mol_pyscf" = Some (VObj 22)
    ∧ globals toy_ready !! "rhf" = Some (VObj 23))
   ∧ integral_pipeline flat_lib toy_ready = (Raise AxisError, flat_stopped)
   ∧ log flat_stopped
     = Called "swapaxes" [VObj 3; VArr toy_matrix; VInt 1; VInt 3] []
         (Raise AxisError)
       :: tail (log flat_stopped))
  ∧ (ndim toy_matrix < 4)%nat
  ∧ globals flat_stopped !! "two_mo" = Some (VArr toy_matrix)
  ∧ globals flat_stopped !! "H_fermionic" = globals toy_ready !! "H_fermionic".
Proof.
  destruct flat_pipeline_stops as [Hrun Hlog].
  split; [split; [exact toy_ready_globals | split; assumption]|].
  destruct toy_ready_globals as (Gnp & Gqml & Gao & Gmol & Grhf).
  destruct (pipeline_stops_at_the_exchange flat_lib _ _ _ _ _ _ _ _ _ _ _ _ _ _
              Gnp Gqml Gao Gmol Grhf Hrun Hlog)
    as (two_ao & c & rest & _ & _ & _ & _ & _ & Hfew & _ & Gtwo & _ & Gf & _).
  split; [exact Hfew|]. split; assumption.
Defined.

Lemma state_importer_steps_witness :
  (globals toy_assembled !! "qml" = Some (VObj 1)
   ∧ state_importer toy_lib toy_assembled = (Ok (), toy_state))
  ∧ ∃ new text, history toy_state = history toy_assembled ++ new
                ∧ last new = Some (Printed (text +:+ newline)).
Proof.
  destruct toy_stage_runs as (_ & _ & _ & H5 & _).
  destruct toy_qml_bound as (_ & Q4 & _).
  split; [split; assumption|].
  destruct (state_importer_steps toy_lib _ _ _ Q4 H5)
    as (m & gto & scf & cc & mol & hf & myhf & solver & mycc & st & text & new
        & Hh & _ & (earlier & Hend) & _).
  exists new, text. split; [exact Hh|].
  rewrite Hend, last_app. reflexivity.
Defined.

Lemma operator_converter_steps_witness :
  (globals toy_state !! "qml" = Some (VObj 1)
   ∧ operator_converter toy_lib toy_state = (Ok (), toy_converted))
  ∧ ∃ op back new, history toy_converted = history toy_state ++ new
                   ∧ bindings "openfermion_op" new = [op; back].
Proof.
  destruct toy_stage_runs as (_ & _ & _ & _ & H6).
  destruct toy_qml_bound as (_ & _ & Q5).
  split; [split; assumption|].
  destruct (operator_converter_steps toy_lib _ _ _ Q5 H6)
    as (m & cls & f1 & t1 & f2 & op & pl & text1 & back & text2 & new
        & Hh & _ & Hb & _).
  exists op, back, new. split; assumption.
Defined.

Lemma why_a_run_stops_witness :
  run failing_lib 0%nat = (Raise (LibraryError "no convergence"), failing_stopped)
  ∧ ∃ f args kwargs r older,
      log failing_stopped = Called f args kwargs r :: older.
Proof.
  split; [exact failing_run_stops|].
  destruct (why_a_run_stops failing_lib 0%nat _ _ failing_run_stops)
    as (f & args & kwargs & r & older & Hlog & _).
  exists f, args, kwargs, r, older. exact Hlog.
Defined.

Lemma np_array_reads_back_witness :
  (Forall (λ r, length r = length [1.5780; 0.8540]%float) [[2.7909; -0.5159]%float]
   ∧ [[1.5780; 0.8540]; [2.7909; -0.5159]]%float !! 1%nat
     = Some [2.7909; -0.5159]%float
   ∧ [2.7909; -0.5159]%float !! 0%nat = Some 2.7909%float)
  ∧ ∃ t, np_array (rows_literal [[1.5780; 0.8540]; [2.7909; -0.5159]]%float)
         = Ok (VArr t)
         ∧ (item <$> getitem t [1; 0]) = Ok (Some 2.7909%float).
Proof.
  assert (Forall (λ r, length r = length [1.5780; 0.8540]%float)
            [[2.7909; -0.5159]%float]) as Hall by (repeat constructor).
  split; [split; [exact Hall | split; reflexivity]|].
  destruct (np_array_reads_back [1.5780; 0.8540]%float [[2.7909; -0.5159]%float]
              1 0 _ _ Hall eq_refl eq_refl) as (t & Hok & _ & Hget & _).
  exists t. split; assumption.
Defined.
